(** * Habit tracker: state normalisation, persistence and streaks

    A shallow embedding of [state.js] (the state store and the streak
    calculator) and of the handlers of [events.js], with the properties of
    the specification stated and settled against it.

    JavaScript values are untyped, so the embedding works over a universe
    [value] of the values the program can meet: [undefined], [null],
    booleans, numbers, strings, arrays and plain objects.  Strings are
    sequences of UTF-16 code units, objects are finite maps from property
    names to values (two objects with the same own properties are equal,
    which is the structural equality the specification speaks of). *)

From Stdlib Require Import ZArith NArith Ascii String DecimalString Lia.
From Stdlib Require DecimalZ.
From stdpp Require Import gmap list fin_maps.

Set Warnings "-register-all".
Local Open Scope Z_scope.

(* ===================================================================== *)
(** ** Strings *)
(* ===================================================================== *)

(** A JavaScript string: its UTF-16 code units. *)
Abbreviation jsstring := (list N).

(** A string literal of the source (all of them are ASCII). *)
Definition lit (s : string) : jsstring :=
  map N_of_ascii (list_ascii_of_string s).

(** WhiteSpace and LineTerminator code points of ECMAScript, the ones
    [String.prototype.trim] strips. *)
Definition is_whitespace (c : N) : bool :=
  match c with
  | 9 | 10 | 11 | 12 | 13 | 32 | 160 | 5760
  | 8192 | 8193 | 8194 | 8195 | 8196 | 8197 | 8198 | 8199 | 8200 | 8201 | 8202
  | 8232 | 8233 | 8239 | 8287 | 12288 | 65279 => true
  | _ => false
  end%N.

Fixpoint trimStart (s : jsstring) : jsstring :=
  match s with
  | c :: rest => if is_whitespace c then trimStart rest else s
  | [] => []
  end.

Definition trimEnd (s : jsstring) : jsstring := rev (trimStart (rev s)).

(** [s.trim()] *)
Definition trim (s : jsstring) : jsstring := trimEnd (trimStart s).

(** [s.padStart(targetLength, fill)] for a one-unit [fill]. *)
Definition padStart (s : jsstring) (targetLength : nat) (fill : N) : jsstring :=
  replicate (targetLength - length s)%nat fill ++ s.

(** Decimal rendering of an integral number, as [String(n)] gives it. *)
Definition dec (z : Z) : jsstring := lit (NilZero.string_of_int (Z.to_int z)).

(* ===================================================================== *)
(** ** Values *)
(* ===================================================================== *)

(** Numbers.  [NInt z] is the double of the integer [z], for the integers
    that [String] writes in full (those below 10^21 in magnitude);
    [NOther c s] is any other finite double, a fractional or a larger one,
    given by the text [c :: s] that [String] renders it as (the rendering
    tells such doubles apart, and it is all the program can observe of
    them). *)
Inductive number :=
| NInt (z : Z)
| NOther (rendering_head : N) (rendering_tail : jsstring)
| NNegZero
| NNaN
| NInfinity (negative : bool).

Inductive value :=
| VUndefined
| VNull
| VBool (b : bool)
| VNum (n : number)
| VStr (s : jsstring)
| VArr (elems : list value)
| VObj (props : gmap jsstring value).

(** ToBoolean *)
Definition truthy (v : value) : bool :=
  match v with
  | VUndefined | VNull => false
  | VBool b => b
  | VNum (NInt z) => negb (z =? 0)
  | VNum NNegZero | VNum NNaN => false
  | VNum (NOther _ _) | VNum (NInfinity _) => true
  | VStr s => negb (bool_decide (s = []))
  | VArr _ | VObj _ => true
  end.

Inductive type_tag := T_undefined | T_object | T_boolean | T_number | T_string.

(** [typeof v] *)
Definition typeof (v : value) : type_tag :=
  match v with
  | VUndefined => T_undefined
  | VNull | VArr _ | VObj _ => T_object
  | VBool _ => T_boolean
  | VNum _ => T_number
  | VStr _ => T_string
  end.

Definition is_object_type (v : value) : bool :=
  match typeof v with T_object => true | _ => false end.

Definition is_string_type (v : value) : bool :=
  match typeof v with T_string => true | _ => false end.

(** [Array.isArray(v)] *)
Definition isArray (v : value) : bool :=
  match v with VArr _ => true | _ => false end.

(** Property names the program uses. *)
Definition k_habits : jsstring := Eval vm_compute in lit "habits".
Definition k_id : jsstring := Eval vm_compute in lit "id".
Definition k_name : jsstring := Eval vm_compute in lit "name".
Definition k_log : jsstring := Eval vm_compute in lit "log".
Definition k_toString : jsstring := Eval vm_compute in lit "toString".

(** [v.k] where [v] is known not to be [null] or [undefined]: the own
    property of a plain object, [undefined] otherwise.  Arrays and
    primitives only own indices and [length], and the prototypes carry none
    of the names the program reads through this function ([habits], [id],
    [name], [log] and date keys such as [2025-11-04]). *)
Definition get (v : value) (k : jsstring) : value :=
  match v with
  | VObj props => default VUndefined (props !! k)
  | _ => VUndefined
  end.

(* ===================================================================== *)
(** ** Exceptions *)
(* ===================================================================== *)

Inductive exn :=
| TypeError
| SyntaxError
| Error (message : jsstring).

Inductive outcome (A : Type) :=
| Returns (a : A)
| Throws (e : exn).
Arguments Returns {A} a.
Arguments Throws {A} e.

Definition outcome_bind {A B} (o : outcome A) (k : A -> outcome B) : outcome B :=
  match o with
  | Returns a => k a
  | Throws e => Throws e
  end.

(** [v.k] with no guard before it: reading a property of [null] or
    [undefined] throws. *)
Definition member (v : value) (k : jsstring) : outcome value :=
  match v with
  | VUndefined | VNull => Throws TypeError
  | _ => Returns (get v k)
  end.

(* ===================================================================== *)
(** ** String coercion *)
(* ===================================================================== *)

Definition number_to_string (n : number) : jsstring :=
  match n with
  | NInt z => dec z
  | NOther c s => c :: s
  | NNegZero => lit "0"
  | NNaN => lit "NaN"
  | NInfinity false => lit "Infinity"
  | NInfinity true => lit "-Infinity"
  end.

(** [String(v)], that is ToString.

    - An array goes through [Array.prototype.join]: [undefined] and [null]
      elements give the empty string, the others are coerced in turn, and
      the pieces are joined with commas.
    - A plain object goes through OrdinaryToPrimitive with hint string: it
      looks up [toString], then [valueOf], and calls the first that is
      callable and returns a primitive.  No value of this universe is
      callable, so an object that owns a [toString] property hides
      [Object.prototype.toString]; what remains is [valueOf], which is
      either an own non-callable or [Object.prototype.valueOf], and that
      one returns the object itself: the coercion ends in a TypeError.
      Without an own [toString] the result is [[object Object]]. *)
Fixpoint ToString (v : value) : outcome jsstring :=
  match v with
  | VUndefined => Returns (lit "undefined")
  | VNull => Returns (lit "null")
  | VBool true => Returns (lit "true")
  | VBool false => Returns (lit "false")
  | VNum n => Returns (number_to_string n)
  | VStr s => Returns s
  | VArr elems =>
      let element (e : value) : outcome jsstring :=
        match e with
        | VUndefined | VNull => Returns []
        | _ => ToString e
        end in
      (fix join (l : list value) : outcome jsstring :=
         match l with
         | [] => Returns []
         | [e] => element e
         | e :: rest =>
             outcome_bind (element e) (fun s =>
             outcome_bind (join rest) (fun r =>
             Returns (s ++ lit "," ++ r)))
         end) elems
  | VObj props =>
      match props !! k_toString with
      | Some _ => Throws TypeError
      | None => Returns (lit "[object Object]")
      end
  end.

(* ===================================================================== *)
(** ** The host: randomness and the clock *)
(* ===================================================================== *)

(** What the browser contributes to id generation.  [has_randomUUID] is
    the test [typeof crypto !== "undefined" && crypto.randomUUID];
    [random_bits t] are the 128 bits drawn by a [crypto.randomUUID()] call,
    [Date_now t] is the reading of [Date.now()] and [random_hex t] are the
    digits of [Math.random().toString(16)] after the point, when the call
    is the host's [t]-th. *)
Record Host := {
  has_randomUUID : bool;
  random_bits : nat -> N;
  Date_now : nat -> Z;
  random_hex : nat -> jsstring
}.

(** Computations that may call into the host and may throw: the state is
    the number of host calls made so far. *)
Definition M (A : Type) : Type := nat -> outcome A * nat.

Definition ret {A} (a : A) : M A := fun t => (Returns a, t).
Definition bind {A B} (m : M A) (k : A -> M B) : M B :=
  fun t => match m t with
           | (Returns a, t') => k a t'
           | (Throws e, t') => (Throws e, t')
           end.
Definition lift {A} (o : outcome A) : M A := fun t => (o, t).

Declare Scope js_scope.
Delimit Scope js_scope with js.
Notation "'let*' x := m 'in' k" := (bind m (fun x => k))
  (at level 10, x name, m at level 100, k at level 200) : js_scope.

Definition hex_digit (d : N) : N :=
  (if d <? 10 then 48 + d else 87 + d)%N.

(** The [n] low hexadecimal digits of [x], most significant first. *)
Fixpoint hex (n : nat) (x : N) : jsstring :=
  match n with
  | O => []
  | S n' => hex n' (x / 16)%N ++ [hex_digit (x mod 16)%N]
  end.

(** A version 4 UUID in its 8-4-4-4-12 text form. *)
Definition uuid_text (r : N) : jsstring :=
  (hex 8 (N.shiftr r 96) ++ lit "-" ++
   hex 4 (N.shiftr r 80) ++ lit "-" ++
   lit "4" ++ hex 3 (N.shiftr r 64) ++ lit "-" ++
   hex 1 (8 + N.shiftr r 62 mod 4) ++ hex 3 (N.shiftr r 48) ++ lit "-" ++
   hex 12 r)%N.

(** [crypto.randomUUID()] *)
Definition randomUUID (host : Host) : M jsstring :=
  fun t => (Returns (uuid_text (random_bits host t)), S t).

(** [Date.now()] *)
Definition now (host : Host) : M Z :=
  fun t => (Returns (Date_now host t), S t).

(** [Math.random().toString(16).slice(2)] *)
Definition random_suffix (host : Host) : M jsstring :=
  fun t => (Returns (random_hex host t), S t).

(* ===================================================================== *)
(** ** newHabit *)
(* ===================================================================== *)

(** The object literal [{ id: ..., name: ..., log: ... }] with a string
    for the id and a string for the name. *)
Definition habit_object (id name : jsstring) (log : gmap jsstring value) : value :=
  VObj {[ k_id := VStr id; k_name := VStr name; k_log := VObj log ]}.

(** [newHabit(name)], for a string [name]. *)
Definition newHabit (host : Host) (name : jsstring) : M value :=
  (let* id :=
     (if has_randomUUID host then randomUUID host
      else (let* ms := now host in
            let* suffix := random_suffix host in
            ret (lit "habit-" ++ dec ms ++ lit "-" ++ suffix))) in
   ret (habit_object id name ∅))%js.

(* ===================================================================== *)
(** ** normalizeState *)
(* ===================================================================== *)

Definition placeholder_name : jsstring := Eval vm_compute in lit "Untitled habit".

(** The id generated inside [normalizeState]:
    [typeof crypto !== "undefined" && crypto.randomUUID
       ? crypto.randomUUID() : `habit-${Date.now()}-${index}`] *)
Definition generated_id (host : Host) (index : nat) : M jsstring :=
  (if has_randomUUID host then randomUUID host
   else (let* ms := now host in
         ret (lit "habit-" ++ dec ms ++ lit "-" ++ dec (Z.of_nat index))))%js.

(** [(h && h.id && String(h.id)) || <generated id>] *)
Definition habit_id (host : Host) (h : value) (index : nat) : M jsstring :=
  (if truthy h && truthy (get h k_id) then
     let* s := lift (ToString (get h k_id)) in
     if truthy (VStr s) then ret s else generated_id host index
   else generated_id host index)%js.

(** [(h && typeof h.name === "string" && h.name.trim()) || "Untitled habit"] *)
Definition habit_name (h : value) : jsstring :=
  let trimmed := match get h k_name with VStr s => trim s | _ => [] end in
  if truthy h && is_string_type (get h k_name) && truthy (VStr trimmed)
  then trimmed
  else placeholder_name.

(** [h && h.log && typeof h.log === "object" && !Array.isArray(h.log)
      ? { ...h.log } : {}]
    The spread copies the own properties, which is all a property map has. *)
Definition habit_log (h : value) : gmap jsstring value :=
  if truthy h && truthy (get h k_log) && is_object_type (get h k_log)
     && negb (isArray (get h k_log))
  then match get h k_log with VObj props => props | _ => ∅ end
  else ∅.

(** The callback of [habitsInput.map((h, index) => ...)]. *)
Definition normalizeHabit (host : Host) (h : value) (index : nat) : M value :=
  (let* id := habit_id host h index in
   ret (habit_object id (habit_name h) (habit_log h)))%js.

(** [Array.prototype.map] with a callback that takes element and index. *)
Fixpoint map_indexed (f : value -> nat -> M value) (l : list value) (index : nat)
  : M (list value) :=
  match l with
  | [] => ret []
  | h :: rest =>
      (let* v := f h index in
       let* vs := map_indexed f rest (S index) in
       ret (v :: vs))%js
  end.

Definition state_object (habits : list value) : value :=
  VObj {[ k_habits := VArr habits ]}.

(** [const raw = source && typeof source === "object" ? source : {}] *)
Definition raw_of (source : value) : value :=
  if truthy source && is_object_type source then source else VObj ∅.

(** [const habitsInput = Array.isArray(raw.habits) ? raw.habits : []] *)
Definition habitsInput_of (raw : value) : list value :=
  match get raw k_habits with
  | VArr elems => elems
  | _ => []
  end.

Definition normalizeState (host : Host) (source : value) : M value :=
  (let* habits := map_indexed (normalizeHabit host) (habitsInput_of (raw_of source)) 0 in
   ret (state_object habits))%js.



(* ===================================================================== *)
(** ** Dates and date keys *)
(* ===================================================================== *)

(** A [Date] object, read in local time: the number of its local calendar
    day (day 0 is 1 January 1970) and the milliseconds into that day.  The
    calendar functions below are the ones of ECMAScript's Date objects, on
    day numbers; the program only reads and sets local calendar fields, so
    the offset of local time to UTC plays no role (changes of that offset
    that skip a whole local day are not modelled). *)
Record Date := {
  local_day : Z;
  time_within_day : Z
}.

(** DayFromYear(y): the day number of 1 January of year [y]. *)
Definition DayFromYear (y : Z) : Z :=
  365 * (y - 1970) + (y - 1969) / 4 - (y - 1901) / 100 + (y - 1601) / 400.

(** YearFromTime: the year whose days contain [day]; the proleptic
    Gregorian year has 146097/400 days on average, which gives the year up
    to one, and the estimate is then adjusted. *)
Definition YearFromDay (day : Z) : Z :=
  let y := 1970 + (400 * day) / 146097 in
  if day <? DayFromYear y then y - 1
  else if DayFromYear (y + 1) <=? day then y + 1
  else y.

Definition InLeapYear (y : Z) : bool :=
  DayFromYear (y + 1) - DayFromYear y =? 366.

(** The day within its year on which month [m] (0 to 11) starts. *)
Definition month_start (leap : bool) (m : Z) : Z :=
  let l := if leap then 1 else 0 in
  match m with
  | 0 => 0
  | 1 => 31
  | 2 => 59 + l
  | 3 => 90 + l
  | 4 => 120 + l
  | 5 => 151 + l
  | 6 => 181 + l
  | 7 => 212 + l
  | 8 => 243 + l
  | 9 => 273 + l
  | 10 => 304 + l
  | _ => 334 + l
  end.

Definition DayWithinYear (day : Z) : Z := day - DayFromYear (YearFromDay day).

(** MonthFromTime: the last month that starts on or before the day. *)
Definition MonthFromDay (day : Z) : Z :=
  let leap := InLeapYear (YearFromDay day) in
  let d := DayWithinYear day in
  if d <? month_start leap 1 then 0
  else if d <? month_start leap 2 then 1
  else if d <? month_start leap 3 then 2
  else if d <? month_start leap 4 then 3
  else if d <? month_start leap 5 then 4
  else if d <? month_start leap 6 then 5
  else if d <? month_start leap 7 then 6
  else if d <? month_start leap 8 then 7
  else if d <? month_start leap 9 then 8
  else if d <? month_start leap 10 then 9
  else if d <? month_start leap 11 then 10
  else 11.

(** DateFromTime: the day of the month, from 1. *)
Definition DateFromDay (day : Z) : Z :=
  DayWithinYear day
  - month_start (InLeapYear (YearFromDay day)) (MonthFromDay day) + 1.

(** MakeDay(year, month, date): months beyond 0..11 carry into the year,
    and the date counts on from the first of the month, so that dates below
    1 reach back into the months before. *)
Definition MakeDay (year month date : Z) : Z :=
  let ym := year + month / 12 in
  let mn := month mod 12 in
  DayFromYear ym + month_start (InLeapYear ym) mn + date - 1.

Definition getFullYear (d : Date) : Z := YearFromDay (local_day d).
Definition getMonth (d : Date) : Z := MonthFromDay (local_day d).
Definition getDate (d : Date) : Z := DateFromDay (local_day d).

(** [d.setDate(date)]: the time within the day is kept. *)
Definition setDate (d : Date) (date : Z) : Date :=
  {| local_day := MakeDay (getFullYear d) (getMonth d) date;
     time_within_day := time_within_day d |}.

(** [toKey(date)]: YYYY-MM-DD in local time. *)
Definition toKey (date : Date) : jsstring :=
  let y := getFullYear date in
  let m := padStart (dec (getMonth date + 1)) 2 48%N in
  let d := padStart (dec (getDate date)) 2 48%N in
  dec y ++ lit "-" ++ m ++ lit "-" ++ d.

(* ===================================================================== *)
(** ** computeStreak *)
(* ===================================================================== *)

(** The body of [for (let i = 0; i < 365; i++)], with [remaining] the
    number of iterations the loop condition still allows: each iteration
    copies [today], moves the copy [i] days back and looks its key up in
    the log; a truthy entry counts, anything else breaks out. *)
Fixpoint streak_loop (log : value) (today : Date) (i : Z) (remaining : nat)
    (streak : nat) : nat :=
  match remaining with
  | O => streak
  | S remaining' =>
      let d := setDate today (getDate today - i) in
      let key := toKey d in
      if truthy (get log key)
      then streak_loop log today (i + 1) remaining' (S streak)
      else streak
  end.

(** [computeStreak(habit)], with [today] the value of [new Date()]. *)
Definition computeStreak (today : Date) (habit : value) : nat :=
  if negb (truthy habit) || negb (truthy (get habit k_log)) then 0%nat
  else streak_loop (get habit k_log) today 0 365 0.

(** [buildWeek()]: the keys of the last seven days, oldest first. *)
Definition buildWeek (today : Date) : list jsstring :=
  map (fun offset => toKey (setDate today (getDate today - offset)))
      [6; 5; 4; 3; 2; 1; 0].

(* ===================================================================== *)
(** ** JSON texts *)
(* ===================================================================== *)

(** A string, as far as [JSON.parse] is concerned: either a JSON text,
    represented by the value it denotes, or a string that is no JSON text
    (the empty string among them), with its code units. *)
Inductive text :=
| JsonText (denotes : value)
| OtherText (chars : jsstring).

(** [JSON.parse(text)] *)
Definition JSON_parse (t : text) : outcome value :=
  match t with
  | JsonText v => Returns v
  | OtherText _ => Throws SyntaxError
  end.

(** What a value denotes once serialised ([None] where serialisation
    yields [undefined]): non-finite numbers become [null], negative zero is
    written [0], an [undefined] element of an array becomes [null], an
    [undefined] property of an object is left out.  No value of this
    universe is callable, so no [toJSON] property is ever called. *)
Fixpoint serialized (v : value) : option value :=
  match v with
  | VUndefined => None
  | VNull => Some VNull
  | VBool b => Some (VBool b)
  | VNum (NInt z) => Some (VNum (NInt z))
  | VNum (NOther c s) => Some (VNum (NOther c s))
  | VNum NNegZero => Some (VNum (NInt 0))
  | VNum NNaN | VNum (NInfinity _) => Some VNull
  | VStr s => Some (VStr s)
  | VArr elems => Some (VArr (map (fun e => default VNull (serialized e)) elems))
  | VObj props => Some (VObj (omap serialized props))
  end.

(** [JSON.stringify(v)], as the string [localStorage.setItem] stores: a
    result of [undefined] is stored as the string "undefined". *)
Definition JSON_stringify (v : value) : text :=
  match serialized v with
  | Some d => JsonText d
  | None => OtherText (lit "undefined")
  end.

(** Truthiness of a string given as a [text]: only the empty string is
    falsy, and no JSON text is empty. *)
Definition text_truthy (t : text) : bool :=
  match t with
  | JsonText _ => true
  | OtherText chars => truthy (VStr chars)
  end.

(* ===================================================================== *)
(** ** The state store *)
(* ===================================================================== *)

Definition STORAGE_KEY : jsstring := Eval vm_compute in lit "habit-tracker-state-v1".

(** What a run of the program leaves behind for the user and its callers
    to see.  [SaveState] records a call of [saveState] with its argument. *)
Inductive effect :=
| Alert (message : jsstring)
| Confirm (message : jsstring)
| Warn (message : jsstring)
| Render
| Download (name : jsstring) (contents : text)
| SaveState (argument : value)
| Uncaught (e : exn).

(** The program's mutable surroundings: the module variable [state], the
    browser's [localStorage], the number of host calls made so far and the
    effects produced so far. *)
Record App := {
  state : value;
  localStorage : gmap jsstring text;
  host_calls : nat;
  effects : list effect
}.

Definition emit (e : effect) (a : App) : App :=
  {| state := state a; localStorage := localStorage a;
     host_calls := host_calls a; effects := effects a ++ [e] |}.

Definition empty_state : value := state_object [].

(** Runs a computation of [M] against the host-call counter of the app. *)
Definition run {A} (m : M A) (a : App) : outcome A * App :=
  let '(o, t) := m (host_calls a) in
  (o, {| state := state a; localStorage := localStorage a;
         host_calls := t; effects := effects a |}).

(** [loadState()]: the [try] block covers the read, the parse and the
    normalisation; whatever is thrown there ends in the warning and the
    empty state. *)
Definition loadState (host : Host) (a : App) : value * App :=
  match localStorage a !! STORAGE_KEY with
  | None => (empty_state, a)
  | Some raw =>
      if negb (text_truthy raw) then (empty_state, a)
      else
        match JSON_parse raw with
        | Throws _ =>
            (empty_state, emit (Warn (lit "Failed to load state, starting fresh.")) a)
        | Returns parsed =>
            match run (normalizeState host parsed) a with
            | (Returns s, a') => (s, a')
            | (Throws _, a') =>
                (empty_state,
                 emit (Warn (lit "Failed to load state, starting fresh.")) a')
            end
        end
  end.

(** [saveState(nextState)]: an exception of [normalizeState] leaves before
    either assignment.  The write to the storage is taken to succeed (the
    program has no handling for a failing one). *)
Definition saveState (host : Host) (nextState : value) (a : App) : outcome unit * App :=
  let a0 := emit (SaveState nextState) a in
  match run (normalizeState host nextState) a0 with
  | (Throws e, a1) => (Throws e, a1)
  | (Returns s, a1) =>
      (Returns tt,
       {| state := s;
          localStorage := <[STORAGE_KEY := JSON_stringify s]> (localStorage a1);
          host_calls := host_calls a1;
          effects := effects a1 |})
  end.

(** [render()] rebuilds the page from [state]; only the fact that it ran
    is kept. *)
Definition render (a : App) : App := emit Render a.

Definition alert (message : jsstring) (a : App) : App := emit (Alert message) a.

(* ===================================================================== *)
(** ** Event handlers *)
(* ===================================================================== *)

(** The properties every plain object inherits from [Object.prototype];
    each of them reads as a function or, for [__proto__], as the prototype
    object, so all are truthy. *)
Definition Object_prototype_names : list jsstring :=
  Eval vm_compute in
  map lit ["constructor"; "hasOwnProperty"; "isPrototypeOf";
           "propertyIsEnumerable"; "toLocaleString"; "toString"; "valueOf";
           "__defineGetter__"; "__defineSetter__"; "__lookupGetter__";
           "__lookupSetter__"; "__proto__"]%string.

Definition k_proto : jsstring := Eval vm_compute in lit "__proto__".

(** ToBoolean of [obj[k]] for a plain object with own properties [props]. *)
Definition truthy_at (props : gmap jsstring value) (k : jsstring) : bool :=
  match props !! k with
  | Some v => truthy v
  | None => bool_decide (k ∈ Object_prototype_names)
  end.

(** [obj[k] = v] for a primitive [v]: an own property is overwritten, a new
    one is created, except that without an own [__proto__] the name reaches
    the inherited setter, which ignores a primitive. *)
Definition assign (props : gmap jsstring value) (k : jsstring) (v : value)
  : gmap jsstring value :=
  match props !! k with
  | Some _ => <[k := v]> props
  | None => if bool_decide (k = k_proto) then props else <[k := v]> props
  end.

Definition index_props (elems : list value) : gmap jsstring value :=
  list_to_map (imap (fun i v => (dec (Z.of_nat i), v)) elems).

(** The own enumerable properties [{ ...v }] copies. *)
Definition spread (v : value) : gmap jsstring value :=
  match v with
  | VObj props => props
  | VArr elems => index_props elems
  | VStr s => index_props (map (fun c => VStr [c]) s)
  | _ => ∅
  end.

(** [v === s] for a string [s]. *)
Definition strict_equal_string (v : value) (s : jsstring) : bool :=
  match v with
  | VStr s' => bool_decide (s' = s)
  | _ => false
  end.

(** The callback of [state.habits.map] in the day-cell branch:
    [if (h.id !== habitId) return h;
     const log = { ...h.log }; log[dayKey] = !log[dayKey];
     return { ...h, log };] *)
Definition toggle_habit (habitId dayKey : jsstring) (h : value) : outcome value :=
  outcome_bind (member h k_id) (fun id =>
  if negb (strict_equal_string id habitId) then Returns h
  else
    let log := spread (get h k_log) in
    let log' := assign log dayKey (VBool (negb (truthy_at log dayKey))) in
    Returns (VObj (<[k_log := VObj log']> (spread h)))).

Fixpoint map_outcome (f : value -> outcome value) (l : list value)
  : outcome (list value) :=
  match l with
  | [] => Returns []
  | x :: rest =>
      outcome_bind (f x) (fun y =>
      outcome_bind (map_outcome f rest) (fun ys => Returns (y :: ys)))
  end.

(** [state.habits.map(callback)] *)
Definition map_habits (f : value -> outcome value) (st : value)
  : outcome (list value) :=
  outcome_bind (member st k_habits) (fun habits =>
  match habits with
  | VArr elems => map_outcome f elems
  | _ => Throws TypeError
  end).

(** The day-cell branch of the click handler. *)
Definition toggle_day (host : Host) (habitId dayKey : jsstring) (a : App) : App :=
  match map_habits (toggle_habit habitId dayKey) (state a) with
  | Throws e => emit (Uncaught e) a
  | Returns nextHabits =>
      match saveState host (state_object nextHabits) a with
      | (Throws e, a') => emit (Uncaught e) a'
      | (Returns _, a') => render a'
      end
  end.

Fixpoint filter_outcome (f : value -> outcome bool) (l : list value)
  : outcome (list value) :=
  match l with
  | [] => Returns []
  | x :: rest =>
      outcome_bind (f x) (fun keep =>
      outcome_bind (filter_outcome f rest) (fun ys =>
      Returns (if keep then x :: ys else ys)))
  end.

(** [state.habits.filter(h => h.id !== habitId)] *)
Definition without_habit (habitId : jsstring) (st : value) : outcome (list value) :=
  outcome_bind (member st k_habits) (fun habits =>
  match habits with
  | VArr elems =>
      filter_outcome
        (fun h => outcome_bind (member h k_id) (fun id =>
                  Returns (negb (strict_equal_string id habitId))))
        elems
  | _ => Throws TypeError
  end).

(** The delete branch of the click handler, once the user has confirmed. *)
Definition delete_habit (host : Host) (habitId : jsstring) (a : App) : App :=
  match without_habit habitId (state a) with
  | Throws e => emit (Uncaught e) a
  | Returns nextHabits =>
      match saveState host (state_object nextHabits) a with
      | (Throws e, a') => emit (Uncaught e) a'
      | (Returns _, a') => render a'
      end
  end.

(** What a click in the rows hit: an element with [data-day-key], the
    delete button of a habit (with the user's answer to the confirmation),
    or anything else.  The dataset entries are strings. *)
Inductive click_target :=
| DayCell (habitId dayKey : jsstring)
| DeleteButton (habitId : jsstring) (confirmed : bool)
| OtherTarget.

(** The click handler that [event_rowClickHandlers] installs.  Nothing
    catches what the handler throws. *)
Definition event_rowClickHandlers (host : Host) (target : click_target) (a : App) : App :=
  match target with
  | DayCell habitId dayKey => toggle_day host habitId dayKey a
  | DeleteButton habitId confirmed =>
      let a0 := emit (Confirm (lit "Delete this habit?")) a in
      if confirmed then delete_habit host habitId a0 else a0
  | OtherTarget => a
  end.

(** The code points of a string, as iterating it yields them: a high
    surrogate followed by a low one makes one element. *)
Fixpoint code_points (s : jsstring) : list jsstring :=
  match s with
  | [] => []
  | c :: rest =>
      match rest with
      | c2 :: rest' =>
          if ((55296 <=? c) && (c <=? 56319) && (56320 <=? c2) && (c2 <=? 57343))%N
          then [c; c2] :: code_points rest'
          else [c] :: code_points rest
      | [] => [[c]]
      end
  end.

(** The elements that [[...state.habits]] spreads: those of an array, the
    code points of a string; nothing else in this universe is iterable. *)
Definition spread_habits (st : value) : outcome (list value) :=
  outcome_bind (member st k_habits) (fun habits =>
  match habits with
  | VArr elems => Returns elems
  | VStr s => Returns (map VStr (code_points s))
  | _ => Throws TypeError
  end).

(** The submit handler that [event_addHabit] installs; [input] is the value
    of the name field.  In [[...state.habits, newHabit(name)]] the habits
    are spread before [newHabit] is called. *)
Definition event_addHabit (host : Host) (input : jsstring) (a : App) : App :=
  let name := trim input in
  if negb (truthy (VStr name)) then a
  else
    match spread_habits (state a) with
    | Throws e => emit (Uncaught e) a
    | Returns habits =>
        match run (newHabit host name) a with
        | (Throws e, a0) => emit (Uncaught e) a0
        | (Returns habit, a0) =>
            match saveState host (state_object (habits ++ [habit])) a0 with
            | (Throws e, a') => emit (Uncaught e) a'
            | (Returns _, a') => render a'
            end
        end
    end.

(** The click handler that [event_reset] installs, with the user's answer
    to the confirmation. *)
Definition event_reset (host : Host) (confirmed : bool) (a : App) : App :=
  let a0 := emit (Confirm (lit "Are you sure? This will erase all habits and logs.")) a in
  if confirmed then
    match saveState host (state_object []) a0 with
    | (Throws e, a') => emit (Uncaught e) a'
    | (Returns _, a') => alert (lit "All data reset.") (render a')
    end
  else a0.

(** The click handler that [event_export] installs: the state, serialised,
    is offered for download. *)
Definition event_export (a : App) : App :=
  emit (Download (lit "habits-export.json") (JSON_stringify (state a))) a.

Definition import_complete : jsstring :=
  Eval vm_compute in lit "Import complete. Data loaded.".
Definition import_failed : jsstring :=
  Eval vm_compute in lit "Import failed. Please check the JSON file format.".

(** The [try] block of the import handler, for a file whose [text()]
    settled with [read]. *)
Definition import_attempt (host : Host) (read : outcome text) (a : App)
  : outcome unit * App :=
  match read with
  | Throws e => (Throws e, a)
  | Returns t =>
      match JSON_parse t with
      | Throws e => (Throws e, a)
      | Returns data =>
          match member data k_habits with
          | Throws e => (Throws e, a)
          | Returns habits =>
              if negb (isArray habits)
              then (Throws (Error (lit "Invalid format")), a)
              else
                match saveState host data a with
                | (Throws e, a') => (Throws e, a')
                | (Returns _, a') => (Returns tt, alert import_complete (render a'))
                end
          end
      end
  end.

(** The change handler that [event_import] installs; [file] is
    [e.target.files?.[0]], given by the outcome of reading its text. *)
Definition event_import (host : Host) (file : option (outcome text)) (a : App) : App :=
  match file with
  | None => a
  | Some read =>
      match import_attempt host read a with
      | (Returns _, a') => a'
      | (Throws _, a') => alert import_failed a'
      end
  end.

(* ===================================================================== *)
(** ** The running program *)
(* ===================================================================== *)

(** The events the handlers of [setupEventHandlers] wait for, with what
    the page and the user contribute to each. *)
Inductive user_event :=
| Submit (input : jsstring)
| Click (target : click_target)
| ExportClick
| ImportChange (file : option (outcome text))
| ResetClick (confirmed : bool).

(** [setupEventHandlers()] installs the five handlers; this is the one that
    runs when an event fires. *)
Definition setupEventHandlers (host : Host) (ev : user_event) (a : App) : App :=
  match ev with
  | Submit input => event_addHabit host input a
  | Click target => event_rowClickHandlers host target a
  | ExportClick => event_export a
  | ImportChange file => event_import host file a
  | ResetClick confirmed => event_reset host confirmed a
  end.

(** The module initialisation [export let state = loadState()], in a
    browser whose storage is [storage]. *)
Definition startup (host : Host) (storage : gmap jsstring text) : App :=
  let a0 := {| state := VUndefined; localStorage := storage;
               host_calls := 0; effects := [] |} in
  let '(st, a) := loadState host a0 in
  {| state := st; localStorage := localStorage a;
     host_calls := host_calls a; effects := effects a |}.

(** The program after a sequence of events. *)
Definition after_events (host : Host) (events : list user_event) (a : App) : App :=
  fold_left (fun a ev => setupEventHandlers host ev a) events a.

(* ===================================================================== *)
(** ** The vocabulary of the specification *)
(* ===================================================================== *)

(** A string with no white space at its start. *)
Definition starts_clean (s : jsstring) : Prop :=
  match s with
  | c :: _ => is_whitespace c = false
  | [] => True
  end.

Definition nonempty (s : jsstring) : bool := negb (bool_decide (s = [])).

(** The value of a computation, whatever it did to the host. *)
Definition result {A} (m : M A) (t : nat) : outcome A := fst (m t).

(** The [habits] array of a state. *)
Definition habits_of (st : value) : list value :=
  match get st k_habits with
  | VArr elems => elems
  | _ => []
  end.

(** A habit as section 3 of the specification wants it: a non-empty string
    [id], a non-empty string [name], a [log] that is a plain object. *)
Definition well_formed_habit (h : value) : bool :=
  match get h k_id, get h k_name, get h k_log with
  | VStr id, VStr name, VObj _ => nonempty id && nonempty name
  | _, _, _ => false
  end.

(** An AppState as section 3 wants it: [habits] is an array of such
    habits. *)
Definition well_formed (st : value) : bool :=
  match get st k_habits with
  | VArr elems => forallb well_formed_habit elems
  | _ => false
  end.

(** A habit as [normalizeState] builds it: exactly the properties [id],
    [name] and [log], the name without surrounding white space. *)
Definition normalized_habit (h : value) : bool :=
  match h with
  | VObj props =>
      bool_decide (dom props = ({[ k_id; k_name; k_log ]} : gset jsstring))
      && match props !! k_id, props !! k_name, props !! k_log with
         | Some (VStr id), Some (VStr name), Some (VObj _) =>
             nonempty id && nonempty name && bool_decide (trim name = name)
         | _, _, _ => false
         end
  | _ => false
  end.

(** A state as [normalizeState] builds it. *)
Definition normalized (st : value) : bool :=
  match st with
  | VObj props =>
      bool_decide (dom props = ({[ k_habits ]} : gset jsstring))
      && match props !! k_habits with
         | Some (VArr elems) => forallb normalized_habit elems
         | _ => false
         end
  | _ => false
  end.

(** How [normalizeState] comes by the id of the habit it builds from the
    entry [h] at position [index]: the entry's own id, coerced, or a
    generated one. *)
Inductive id_choice (host : Host) (h : value) (index : nat) (id : jsstring) : Prop :=
| id_coerced :
    truthy h && truthy (get h k_id) = true ->
    ToString (get h k_id) = Returns id ->
    id <> [] ->
    id_choice host h index id
| id_generated (t : nat) :
    truthy h && truthy (get h k_id) = false \/ ToString (get h k_id) = Returns [] ->
    generated_id host index t = (Returns id, S t) ->
    id_choice host h index id.

(** The entries [normalizeState] maps over. *)
Definition entries_of (source : value) : list value :=
  habitsInput_of (raw_of source).

(** The entry carries a truthy id. *)
Definition id_truthy (h : value) : bool := truthy (get h k_id).

(** The entry carries a truthy id that coerces to a non-empty string: the
    entries for which no id is generated. *)
Definition id_coerces (h : value) : bool :=
  truthy (get h k_id)
  && match ToString (get h k_id) with
     | Returns s => nonempty s
     | Throws _ => false
     end.

(** [normalizeState(normalizeState(source))], the inner call made when the
    host has seen [t] calls and the outer one when it has seen [t']. *)
Definition normalized_twice (host : Host) (source : value) (t t' : nat)
  : outcome value :=
  outcome_bind (result (normalizeState host source) t)
               (fun st => result (normalizeState host st) t').

(** The string an entry's id coerces to (empty if the coercion throws). *)
Definition coerced_id (h : value) : jsstring :=
  match ToString (get h k_id) with
  | Returns s => s
  | Throws _ => []
  end.

(** The date [i] local calendar days before [today], at the same time of
    day. *)
Definition day_before (today : Date) (i : Z) : Date :=
  {| local_day := local_day today - i; time_within_day := time_within_day today |}.

(** The log marks the day [i] days before [today]: the key of that day maps
    to a truthy value. *)
Definition marked (log : value) (today : Date) (i : nat) : bool :=
  truthy (get log (toKey (day_before today (Z.of_nat i)))).


(** The value is the boolean [true]. *)
Definition is_true (v : value) : bool :=
  match v with
  | VBool true => true
  | _ => false
  end.

(** A value that JSON carries unchanged: built from [null], booleans,
    finite numbers other than negative zero, strings, arrays and plain
    objects, with no [undefined], NaN or infinity anywhere inside. *)
Fixpoint representable (v : value) : bool :=
  match v with
  | VUndefined => false
  | VNull | VBool _ | VStr _ => true
  | VNum (NInt _) | VNum (NOther _ _) => true
  | VNum _ => false
  | VArr elems => forallb representable elems
  | VObj props => forallb snd (map_to_list (representable <$> props))
  end.

(** The program before its first run in a fresh browser. *)
Definition fresh_app : App :=
  {| state := empty_state; localStorage := ∅; host_calls := 0; effects := [] |}.

(** What the import handler refuses: a text that does not parse, or one
    that parses to a value whose [habits] is not an array. *)
Definition rejected_import (t : text) : bool :=
  match JSON_parse t with
  | Throws _ => true
  | Returns data => negb (isArray (get data k_habits))
  end.

(* ===================================================================== *)
(** ** Further vocabulary: dates *)
(* ===================================================================== *)

(** The two decimal digits of a number below 100. *)
Definition two_digits (n : Z) : jsstring :=
  [Z.to_N (48 + n / 10); Z.to_N (48 + n mod 10)].

(** The hyphen. *)
Definition hyphen : N := 45%N.

(* ===================================================================== *)
(** ** Further vocabulary: the store *)
(* ===================================================================== *)

(** Every log of the state is representable in JSON. *)
Definition logs_representable (st : value) : bool :=
  forallb (fun h => representable (get h k_log)) (habits_of st).


(** One step of the program either leaves state and storage alone, or
    leaves a normalized state with its serialisation stored under the
    storage key, and nothing else in the storage changed. *)
Definition saved_or_untouched (a a' : App) : Prop :=
  (state a' = state a /\ localStorage a' = localStorage a)
  \/ (normalized (state a') = true
      /\ localStorage a'
         = <[STORAGE_KEY := JSON_stringify (state a')]> (localStorage a)).




Definition export_name : jsstring := Eval vm_compute in lit "habits-export.json".

(* ===================================================================== *)
(** ** Sample data *)
(* ===================================================================== *)

(** A host with [crypto.randomUUID], and one without it. *)
Definition sample_host : Host :=
  {| has_randomUUID := true;
     random_bits := fun t => (N.of_nat t * 1000003 + 77)%N;
     Date_now := fun t => 1762128000000 + Z.of_nat t;
     random_hex := fun t => hex 13 (N.of_nat t * 7919 + 11) |}.

Definition legacy_host : Host :=
  {| has_randomUUID := false;
     random_bits := fun _ => 0%N;
     Date_now := fun t => 1762128000000 + Z.of_nat t;
     random_hex := fun t => hex 13 (N.of_nat t * 7919 + 11) |}.

(** An object literal. *)
Definition object (fields : list (string * value)) : value :=
  VObj (list_to_map (map (fun f => (lit f.1, f.2)) fields)).

Definition str (s : string) : value := VStr (lit s).
Definition num (z : Z) : value := VNum (NInt z).

(** [{"habits":[{"id":{"toString":0},"name":"Read"}]}] *)
Definition uncoercible_id_state : value :=
  object [("habits"%string,
           VArr [object [("id"%string, object [("toString"%string, num 0)]);
                         ("name"%string, str "Read")]])].

(** [{"habits":[null,{"id":[{"toString":null}],"name":"Run"},7]}] *)
Definition uncoercible_nested_id_state : value :=
  object [("habits"%string,
           VArr [VNull;
                 object [("id"%string, VArr [object [("toString"%string, VNull)]]);
                         ("name"%string, str "Run")];
                 num 7])].

(** [{"habits":[{"id":[],"name":"  Water "}]}] *)
Definition empty_array_id_habit : value :=
  object [("id"%string, VArr []); ("name"%string, str "  Water ")].
Definition empty_array_id_state : value :=
  object [("habits"%string, VArr [empty_array_id_habit])].

(** [{"habits":[{"id":7,"name":" Water ","log":{"2025-11-03":true}},
                {"name":"   "}, null]}] *)
Definition mixed_habit : value :=
  object [("id"%string, num 7); ("name"%string, str " Water ");
          ("log"%string, object [("2025-11-03"%string, VBool true)])].
Definition blank_habit : value := object [("name"%string, str "   ")].
Definition mixed_state : value :=
  object [("habits"%string, VArr [mixed_habit; blank_habit; VNull])].

(** The value a computation returned ([undefined] if it threw). *)
Definition returned (o : outcome value) : value :=
  match o with
  | Returns v => v
  | Throws _ => VUndefined
  end.

(** The habit at position [k] of a state ([undefined] if there is none). *)
Definition habit_at (st : value) (k : nat) : value :=
  default VUndefined (habits_of st !! k).

Definition mixed_state_normalized : value :=
  returned (result (normalizeState sample_host mixed_state) 0).

(** [{"habits":[{"id":7,"name":" Water ","log":{"2025-11-03":true}},
                {"id":"a1","name":"Run","log":[1,2]}]}] *)
Definition identified_state : value :=
  object [("habits"%string,
           VArr [mixed_habit;
                 object [("id"%string, str "a1"); ("name"%string, str "Run");
                         ("log"%string, VArr [num 1; num 2])]])].

(** Monday 3 November 2025, half past nine in the morning. *)
Definition sample_today : Date :=
  {| local_day := 20395; time_within_day := 34200000 |}.

(** A log that marks the last [n] days, today included, with [true]. *)
Definition unbroken_log (today : Date) (n : nat) : gmap jsstring value :=
  list_to_map (map (fun i => (toKey (day_before today (Z.of_nat i)), VBool true))
                   (seq 0 n)).

Definition unbroken_habit : value :=
  habit_object (lit "h1") (lit "Run") (unbroken_log sample_today 400).


(** The text [{"habits":"not-an-array"}] and a text that is no JSON. *)
Definition not_an_array_text : text :=
  JsonText (object [("habits"%string, str "not-an-array")]).
Definition garbled_text : text := OtherText (lit "{habits").

(** A running program whose state is the normalized sample state. *)
Definition sample_app : App :=
  {| state := mixed_state_normalized; localStorage := ∅;
     host_calls := 3; effects := [] |}.

(** A habit with the given log. *)
Definition habit_with_log (entries : list (string * value)) : value :=
  object [("id"%string, str "h1"); ("name"%string, str "Run");
          ("log"%string, object entries)].

(** The same day as [sample_today], shortly before midnight. *)
Definition sample_tonight : Date :=
  {| local_day := 20395; time_within_day := 86340000 |}.

(** Two habits whose logs mark the same days in different ways. *)
Definition plain_habit : value :=
  habit_with_log [("2025-11-03"%string, VBool true); ("2025-11-02"%string, num 1)].

Definition noisy_habit : value :=
  object [("id"%string, str "zz"); ("name"%string, str "Swim");
          ("log"%string,
           object [("2025-11-03"%string, str "yes"); ("2025-11-02"%string, VArr []);
                   ("2025-11-01"%string, VNull); ("1999-12-31"%string, VBool true);
                   ("note"%string, str "x")])].

(** [{"habits":[{},{"name":"Run"},{"id":""}]}]: no entry has an id. *)
Definition anonymous_state : value :=
  object [("habits"%string,
           VArr [object []; object [("name"%string, str "Run")];
                 object [("id"%string, str "")]])].

(** A host without [crypto.randomUUID] whose clock stands still. *)
Definition frozen_host : Host :=
  {| has_randomUUID := false;
     random_bits := fun _ => 0%N;
     Date_now := fun _ => 1762128000000;
     random_hex := fun _ => [] |}.

(** The second entry of [identified_state], whose log is an array. *)
Definition array_log_habit : value :=
  object [("id"%string, str "a1"); ("name"%string, str "Run");
          ("log"%string, VArr [num 1; num 2])].

Definition identified_state_normalized : value :=
  returned (result (normalizeState sample_host identified_state) 0).

(** Storages of a browser: one whose entry under the storage key is no
    JSON text, one whose entry is empty, one whose entry denotes a state
    with an id that cannot be coerced, and one with an entry of another
    program. *)
Definition warning : jsstring :=
  Eval vm_compute in lit "Failed to load state, starting fresh.".

Definition garbled_storage : gmap jsstring text :=
  {[ STORAGE_KEY := garbled_text ]}.
Definition blank_storage : gmap jsstring text :=
  {[ STORAGE_KEY := OtherText [] ]}.
Definition uncoercible_storage : gmap jsstring text :=
  {[ STORAGE_KEY := JsonText uncoercible_id_state ]}.
Definition foreign_storage : gmap jsstring text :=
  {[ lit "theme" := OtherText (lit "dark") ]}.

Definition app_with (storage : gmap jsstring text) : App :=
  {| state := mixed_state_normalized; localStorage := storage;
     host_calls := 2; effects := [Render] |}.

(** [sample_app] with a second habit that shares the id of the first. *)
Definition twin_app : App :=
  {| state := state_object [habit_at mixed_state_normalized 0;
                            habit_at mixed_state_normalized 1;
                            habit_object (lit "7") (lit "Twin") ∅];
     localStorage := foreign_storage; host_calls := 3; effects := [] |}.

(** A session: add a habit, mark two days, import a file that is refused,
    export, try to reset and cancel, delete a habit that is not there. *)
Definition sample_session : list user_event :=
  [Submit (lit " Read ");
   Click (DayCell (lit "7") (toKey sample_today));
   Click (DayCell (lit "7") (lit "2025-11-01"));
   ImportChange (Some (Returns not_an_array_text));
   ImportChange (Some (Returns (JsonText identified_state)));
   ExportClick;
   ResetClick false;
   Click (DeleteButton (lit "none") true);
   Submit (lit "Walk")].
(* ===================================================================== *)
(** ** Induction over values *)
(* ===================================================================== *)

Fixpoint vsize (v : value) : nat :=
  match v with
  | VArr elems => S (list_sum (map vsize elems))
  | VObj props => S (list_sum (map snd (map_to_list (vsize <$> props))))
  | _ => 1%nat
  end.

Lemma list_sum_elem (x : nat) (l : list nat) : x ∈ l -> (x <= list_sum l)%nat.
Proof.
  induction 1 as [|? ? ? ? IH]; simpl; [lia|]. lia.
Qed.

Lemma vsize_elem (v : value) (elems : list value) :
  v ∈ elems -> (vsize v < vsize (VArr elems))%nat.
Proof.
  intros Hin. simpl.
  assert (vsize v ∈ map vsize elems) as H by (apply list_elem_of_fmap; eauto).
  apply list_sum_elem in H. lia.
Qed.

Lemma vsize_prop (k : jsstring) (v : value) (props : gmap jsstring value) :
  props !! k = Some v -> (vsize v < vsize (VObj props))%nat.
Proof.
  intros Hk. simpl.
  assert ((k, vsize v) ∈ map_to_list (vsize <$> props)) as H.
  { apply elem_of_map_to_list. by rewrite lookup_fmap, Hk. }
  assert (vsize v ∈ map snd (map_to_list (vsize <$> props))) as H'.
  { apply list_elem_of_fmap. by exists (k, vsize v). }
  apply list_sum_elem in H'. lia.
Qed.

(** The induction principle of [value], with the hypotheses for the
    elements of an array and the properties of an object. *)
Lemma value_induction (P : value -> Prop) :
  P VUndefined -> P VNull -> (forall b, P (VBool b)) -> (forall n, P (VNum n)) ->
  (forall s, P (VStr s)) ->
  (forall elems, Forall P elems -> P (VArr elems)) ->
  (forall props, map_Forall (fun _ => P) props -> P (VObj props)) ->
  forall v, P v.
Proof.
  intros Hu Hn Hb Hnum Hs Ha Ho v.
  remember (vsize v) as n eqn:Hsize. revert v Hsize.
  induction n as [n IH] using lt_wf_ind. intros v ->.
  destruct v; auto.
  - apply Ha. apply Forall_forall. intros x Hx.
    apply (IH (vsize x)); [by apply vsize_elem | done].
  - apply Ho. intros k x Hk.
    apply (IH (vsize x)); [by apply (vsize_prop k) | done].
Qed.

(* ===================================================================== *)
(** ** Facts about strings *)
(* ===================================================================== *)

Lemma lit_cons (c : ascii) (s : string) :
  lit (String c s) = N_of_ascii c :: lit s.
Proof. reflexivity. Qed.

Lemma string_of_uint_nonempty (d : Decimal.uint) :
  d <> Decimal.Nil -> NilEmpty.string_of_uint d <> EmptyString.
Proof. destruct d; simpl; congruence. Qed.

Lemma dec_nonempty (z : Z) : dec z <> [].
Proof.
  unfold dec.
  assert (NilZero.string_of_int (Z.to_int z) <> EmptyString) as H.
  { destruct (Z.to_int z) as [d|d]; simpl; [|congruence].
    unfold NilZero.string_of_uint. destruct d; simpl; congruence. }
  destruct (NilZero.string_of_int (Z.to_int z)); [congruence|].
  rewrite lit_cons. discriminate.
Qed.

Lemma number_to_string_nonempty (n : number) : number_to_string n <> [].
Proof.
  destruct n as [z|c s| | |[]]; simpl; try discriminate. apply dec_nonempty.
Qed.

Lemma hex_length (n : nat) (x : N) : length (hex n x) = n.
Proof.
  revert x. induction n as [|n IH]; intros x; simpl; [done|].
  rewrite length_app, IH. simpl. lia.
Qed.

Lemma uuid_text_length (r : N) : length (uuid_text r) = 36%nat.
Proof.
  unfold uuid_text. repeat rewrite length_app. repeat rewrite hex_length.
  reflexivity.
Qed.

Lemma uuid_text_nonempty (r : N) : uuid_text r <> [].
Proof.
  intros H. pose proof (uuid_text_length r) as Hl. rewrite H in Hl. discriminate.
Qed.

(** *** trim *)

Lemma trimStart_clean (s : jsstring) : starts_clean (trimStart s).
Proof.
  induction s as [|c s IH]; simpl; [done|].
  destruct (is_whitespace c) eqn:Hc; [done|]. simpl. done.
Qed.

Lemma trimStart_fixed (s : jsstring) : starts_clean s -> trimStart s = s.
Proof. destruct s as [|c s]; simpl; [done|]. by intros ->. Qed.

Lemma trimStart_suffix (s : jsstring) :
  exists w, s = w ++ trimStart s.
Proof.
  induction s as [|c s [w IH]]; simpl; [by exists []|].
  destruct (is_whitespace c).
  - exists (c :: w). simpl. by f_equal.
  - by exists [].
Qed.

Lemma trimEnd_prefix (s : jsstring) :
  exists w, s = trimEnd s ++ w.
Proof.
  destruct (trimStart_suffix (rev s)) as [w Hw].
  exists (rev w). unfold trimEnd.
  rewrite <- rev_app_distr, <- Hw. by rewrite rev_involutive.
Qed.

Lemma trimEnd_clean (s : jsstring) : starts_clean s -> starts_clean (trimEnd s).
Proof.
  intros Hs. destruct (trimEnd_prefix s) as [w Hw].
  destruct (trimEnd s) as [|c r]; [done|].
  rewrite Hw in Hs. simpl in *. done.
Qed.

Lemma trimEnd_idempotent (s : jsstring) : trimEnd (trimEnd s) = trimEnd s.
Proof.
  unfold trimEnd. rewrite rev_involutive.
  by rewrite (trimStart_fixed (trimStart _)) by apply trimStart_clean.
Qed.

(** Trimming what is already trimmed changes nothing. *)
Lemma trim_idempotent (s : jsstring) : trim (trim s) = trim s.
Proof.
  unfold trim.
  rewrite (trimStart_fixed (trimEnd _)).
  - apply trimEnd_idempotent.
  - apply trimEnd_clean, trimStart_clean.
Qed.

Lemma truthy_string (s : jsstring) : truthy (VStr s) = true <-> s <> [].
Proof.
  simpl. rewrite negb_true_iff, bool_decide_eq_false. done.
Qed.

Lemma falsy_string (s : jsstring) : truthy (VStr s) = false <-> s = [].
Proof.
  simpl. rewrite negb_false_iff, bool_decide_eq_true. done.
Qed.

(* ===================================================================== *)
(** ** Facts about normalizeState *)
(* ===================================================================== *)

Lemma key_lookups (id name : value) (log : value) :
  let props : gmap jsstring value := {[ k_id := id; k_name := name; k_log := log ]} in
  props !! k_id = Some id /\ props !! k_name = Some name /\ props !! k_log = Some log.
Proof. by vm_compute. Qed.

Lemma get_habit_object_id id name log : get (habit_object id name log) k_id = VStr id.
Proof. by vm_compute. Qed.
Lemma get_habit_object_name id name log : get (habit_object id name log) k_name = VStr name.
Proof. by vm_compute. Qed.
Lemma get_habit_object_log id name log : get (habit_object id name log) k_log = VObj log.
Proof. by vm_compute. Qed.
Lemma get_state_object habits : get (state_object habits) k_habits = VArr habits.
Proof. by vm_compute. Qed.
Lemma habits_of_state_object habits : habits_of (state_object habits) = habits.
Proof. by vm_compute. Qed.

Lemma truthy_get (h : value) (k : jsstring) :
  truthy (get h k) = true -> truthy h = true.
Proof. destruct h; simpl; try discriminate; done. Qed.

(** The element function of [join] and the loop itself, as [ToString]
    unfolds them. *)
Lemma ToString_array_nil : ToString (VArr []) = Returns [].
Proof. reflexivity. Qed.

Lemma ToString_throws (v : value) (e : exn) : ToString v = Throws e -> e = TypeError.
Proof.
  revert e. induction v as [| |b|n|s|elems IH|props IH] using value_induction; intros e.
  - discriminate.
  - discriminate.
  - destruct b; discriminate.
  - discriminate.
  - discriminate.
  - induction IH as [|x rest Hx Hrest IHrest]; [discriminate|].
    intros H. simpl in H.
    destruct rest as [|y rest'].
    + destruct x; try discriminate; by apply Hx.
    + unfold outcome_bind in H at 1.
      match type of H with
      | match ?el with _ => _ end = _ => destruct el as [s|e'] eqn:Hel
      end.
      * unfold outcome_bind in H.
        match type of H with
        | match ?j with _ => _ end = _ => destruct j as [r|e''] eqn:Hj
        end; [discriminate|].
        injection H as <-. by apply IHrest.
      * injection H as <-. destruct x; try discriminate; by apply Hx.
  - simpl. destruct (props !! k_toString); [|discriminate]. by intros [= <-].
Qed.

Lemma generated_id_returns (host : Host) (index t : nat) :
  exists g, generated_id host index t = (Returns g, S t) /\ g <> [].
Proof.
  unfold generated_id. destruct (has_randomUUID host).
  - eexists. split; [reflexivity|]. apply uuid_text_nonempty.
  - eexists. split; [reflexivity|]. discriminate.
Qed.

(** The three ways [habit_id] can end. *)
Lemma habit_id_cases (host : Host) (h : value) (index t : nat) :
  (exists id, habit_id host h index t = (Returns id, t)
              /\ truthy h && truthy (get h k_id) = true
              /\ ToString (get h k_id) = Returns id /\ id <> [])
  \/ (exists id, habit_id host h index t = (Returns id, S t)
                 /\ generated_id host index t = (Returns id, S t)
                 /\ id <> []
                 /\ (truthy h && truthy (get h k_id) = false
                     \/ ToString (get h k_id) = Returns []))
  \/ (habit_id host h index t = (Throws TypeError, t)
      /\ truthy h && truthy (get h k_id) = true
      /\ ToString (get h k_id) = Throws TypeError).
Proof.
  unfold habit_id.
  destruct (generated_id_returns host index t) as (g & Hg & Hne).
  destruct (truthy h && truthy (get h k_id)) eqn:Hguard.
  - unfold bind, lift.
    destruct (ToString (get h k_id)) as [s|e] eqn:Hs.
    + destruct (truthy (VStr s)) eqn:Hts.
      * left. exists s. repeat split; auto. by apply truthy_string.
      * right; left. exists g. apply falsy_string in Hts. subst s. by repeat split; auto.
    + right; right. apply ToString_throws in Hs as ->. by repeat split.
  - right; left. exists g. by repeat split; auto.
Qed.

Lemma habit_id_returns (host : Host) (h : value) (index t : nat) (id : jsstring) (t' : nat) :
  habit_id host h index t = (Returns id, t') ->
  id <> [] /\ id_choice host h index id /\ (t <= t')%nat.
Proof.
  intros H.
  destruct (habit_id_cases host h index t)
    as [(s & Hs & Hg & Hc & Hne) | [(g & Hs & Hgen & Hne & Hwhy) | (Hs & _)]];
    rewrite Hs in H; [| |discriminate]; injection H as <- <-.
  - split; [done|]. split; [by apply id_coerced|lia].
  - split; [done|]. split; [by apply (id_generated _ _ _ _ t)|lia].
Qed.

Lemma habit_id_throws (host : Host) (h : value) (index t : nat) (e : exn) (t' : nat) :
  habit_id host h index t = (Throws e, t') ->
  e = TypeError /\ truthy h && truthy (get h k_id) = true
  /\ ToString (get h k_id) = Throws TypeError.
Proof.
  intros H.
  destruct (habit_id_cases host h index t)
    as [(s & Hs & _) | [(g & Hs & _) | (Hs & Hg & Hc)]];
    rewrite Hs in H; try discriminate.
  by injection H as <- <-.
Qed.

Lemma normalizeHabit_returns (host : Host) (h : value) (index t : nat) (o : value) (t' : nat) :
  normalizeHabit host h index t = (Returns o, t') ->
  exists id, o = habit_object id (habit_name h) (habit_log h)
             /\ id <> [] /\ id_choice host h index id.
Proof.
  unfold normalizeHabit, bind, ret.
  destruct (habit_id host h index t) as [[id|e] t1] eqn:Hid; [|discriminate].
  intros [= <- <-]. apply habit_id_returns in Hid as (Hne & Hc & _). eauto.
Qed.

Lemma normalizeHabit_throws (host : Host) (h : value) (index t : nat) (e : exn) (t' : nat) :
  normalizeHabit host h index t = (Throws e, t') ->
  e = TypeError /\ truthy h && truthy (get h k_id) = true
  /\ ToString (get h k_id) = Throws TypeError.
Proof.
  unfold normalizeHabit, bind, ret.
  destruct (habit_id host h index t) as [[id|e0] t1] eqn:Hid; [discriminate|].
  intros [= <- <-]. by apply habit_id_throws in Hid.
Qed.

(** [map] keeps length and order: the [k]-th result comes from the [k]-th
    element, called with its index. *)
Lemma map_indexed_returns (f : value -> nat -> M value) (l : list value)
    (index t : nat) (out : list value) (t' : nat) :
  map_indexed f l index t = (Returns out, t') ->
  length out = length l
  /\ forall k h, l !! k = Some h ->
       exists o tk tk', f h (index + k)%nat tk = (Returns o, tk') /\ out !! k = Some o.
Proof.
  revert index t out t'. induction l as [|x rest IH]; intros index t out t'; simpl.
  - unfold ret. intros [= <- <-]. split; [done|]. intros k h Hk. done.
  - unfold bind, ret.
    destruct (f x index t) as [[v|e] t1] eqn:Hx; [|discriminate].
    destruct (map_indexed f rest (S index) t1) as [[vs|e] t2] eqn:Hrest; [|discriminate].
    intros [= <- <-]. apply IH in Hrest as [Hlen Hrest].
    split; [simpl; by f_equal|].
    intros [|k] h Hk; simpl in Hk.
    + injection Hk as <-. exists v, t, t1. rewrite Nat.add_0_r. done.
    + apply Hrest in Hk as (o & tk & tk' & Hf & Ho).
      exists o, tk, tk'. rewrite <- Nat.add_succ_comm. done.
Qed.

Lemma map_indexed_throws (f : value -> nat -> M value) (l : list value)
    (index t : nat) (e : exn) (t' : nat) :
  map_indexed f l index t = (Throws e, t') ->
  exists k h tk tk', l !! k = Some h /\ f h (index + k)%nat tk = (Throws e, tk').
Proof.
  revert index t. induction l as [|x rest IH]; intros index t; simpl.
  - discriminate.
  - unfold bind, ret.
    destruct (f x index t) as [[v|e0] t1] eqn:Hx.
    + destruct (map_indexed f rest (S index) t1) as [[vs|e1] t2] eqn:Hrest; [discriminate|].
      intros [= <- <-]. apply IH in Hrest as (k & h & tk & tk' & Hk & Hf).
      exists (S k), h, tk, tk'. rewrite <- Nat.add_succ_comm. done.
    + intros [= <- <-]. exists 0%nat, x, t, t1. rewrite Nat.add_0_r. done.
Qed.

(** What [normalizeState] returns, when it returns. *)
Lemma normalizeState_returns (host : Host) (source : value) (t : nat) (st : value) :
  result (normalizeState host source) t = Returns st ->
  exists out,
    st = state_object out
    /\ length out = length (habitsInput_of (raw_of source))
    /\ forall k h, habitsInput_of (raw_of source) !! k = Some h ->
         exists id, out !! k = Some (habit_object id (habit_name h) (habit_log h))
                    /\ id <> [] /\ id_choice host h k id.
Proof.
  unfold result, normalizeState, bind, ret.
  destruct (map_indexed _ _ _ _) as [[out|e] t1] eqn:Hmap; [|discriminate].
  simpl. intros [= <-]. exists out. split; [done|].
  apply map_indexed_returns in Hmap as [Hlen Hk]. split; [done|].
  intros k h Hh. apply Hk in Hh as (o & tk & tk' & Hf & Ho).
  apply normalizeHabit_returns in Hf as (id & -> & Hne & Hc). eauto.
Qed.

(** What makes [normalizeState] throw: the string coercion of an id. *)
Lemma normalizeState_throws (host : Host) (source : value) (t : nat) (e : exn) :
  result (normalizeState host source) t = Throws e ->
  e = TypeError
  /\ exists k h, habitsInput_of (raw_of source) !! k = Some h
                 /\ truthy h && truthy (get h k_id) = true
                 /\ ToString (get h k_id) = Throws TypeError.
Proof.
  unfold result, normalizeState, bind, ret.
  destruct (map_indexed _ _ _ _) as [[out|e0] t1] eqn:Hmap; [discriminate|].
  simpl. intros [= <-].
  apply map_indexed_throws in Hmap as (k & h & tk & tk' & Hk & Hf).
  apply normalizeHabit_throws in Hf as (-> & Hg & Hs). eauto 10.
Qed.

(* ===================================================================== *)
(** ** Normalisation: shape of the result *)
(* ===================================================================== *)

Lemma well_formed_habit_object (id name : jsstring) (log : gmap jsstring value) :
  id <> [] -> name <> [] -> well_formed_habit (habit_object id name log) = true.
Proof.
  intros Hid Hname. unfold well_formed_habit.
  rewrite get_habit_object_id, get_habit_object_name, get_habit_object_log.
  unfold nonempty. by rewrite !bool_decide_eq_false_2.
Qed.

Lemma habit_name_cases (h : value) :
  (exists n, get h k_name = VStr n /\ trim n <> [] /\ habit_name h = trim n)
  \/ (habit_name h = placeholder_name
      /\ forall n, get h k_name = VStr n -> trim n = []).
Proof.
  unfold habit_name.
  destruct (get h k_name) as [| | | |n| |] eqn:Hn;
    try (right; cbn [is_string_type typeof]; rewrite andb_false_r;
         split; [done|intros ?; discriminate]).
  assert (truthy h = true) as -> by (by destruct h).
  cbn [is_string_type typeof andb].
  destruct (truthy (VStr (trim n))) eqn:Ht.
  - left. exists n. apply truthy_string in Ht. done.
  - right. apply falsy_string in Ht. split; [done|]. by intros ? [= <-].
Qed.

Lemma habit_name_nonempty (h : value) : habit_name h <> [].
Proof.
  destruct (habit_name_cases h) as [(n & _ & Hne & ->) | [-> _]]; [done|discriminate].
Qed.

Lemma habit_name_trimmed (h : value) : trim (habit_name h) = habit_name h.
Proof.
  destruct (habit_name_cases h) as [(n & _ & _ & ->) | [-> _]].
  - apply trim_idempotent.
  - by vm_compute.
Qed.

(** Whatever [normalizeState] returns is a well-formed AppState. *)
Lemma normalizeState_well_formed (host : Host) (source : value) (t : nat) (st : value) :
  result (normalizeState host source) t = Returns st -> well_formed st = true.
Proof.
  intros H. apply normalizeState_returns in H as (out & -> & Hlen & Hout).
  unfold well_formed. rewrite get_state_object.
  apply forallb_forall. intros o Ho. apply list_elem_of_In in Ho.
  apply list_elem_of_lookup in Ho as [k Hk].
  destruct (habitsInput_of (raw_of source) !! k) as [h|] eqn:Hh.
  - apply Hout in Hh as (id & Hid & Hne & _).
    rewrite Hk in Hid. injection Hid as ->.
    apply well_formed_habit_object; [done|apply habit_name_nonempty].
  - apply lookup_ge_None in Hh. apply lookup_lt_Some in Hk. lia.
Qed.

(** [normalizeState] either returns a well-formed state or throws the
    TypeError of an id that cannot be coerced to a string. *)
Lemma normalizeState_outcome (host : Host) (source : value) (t : nat) :
  (exists st, result (normalizeState host source) t = Returns st
              /\ well_formed st = true)
  \/ (result (normalizeState host source) t = Throws TypeError
      /\ exists k h, habitsInput_of (raw_of source) !! k = Some h
                     /\ truthy (get h k_id) = true
                     /\ ToString (get h k_id) = Throws TypeError).
Proof.
  destruct (result (normalizeState host source) t) as [st|e] eqn:H.
  - left. exists st. split; [done|]. by apply normalizeState_well_formed in H.
  - right. apply normalizeState_throws in H as (-> & k & h & Hk & Hg & Hs).
    split; [done|]. exists k, h. apply andb_true_iff in Hg as [_ Hg]. done.
Qed.

(** C1 (code defect).  The specification wants [normalizeState] to return a
    well-formed AppState for every input and never to raise.  On the parsed
    JSON text [{"habits":[{"id":{"toString":0},"name":"Read"}]}] the id is
    truthy, so the code calls [String] on it; the id owns a [toString]
    property that is not callable, the coercion throws, and with it
    [normalizeState]: it raises a TypeError on every host, at any time. *)
Theorem normalizeState_raises_on_uncoercible_id (host : Host) (t : nat) :
  result (normalizeState host uncoercible_id_state) t = Throws TypeError.
Proof. reflexivity. Qed.

(* ===================================================================== *)
(** ** Normalisation: entries are kept in place *)
(* ===================================================================== *)

(** When [normalizeState] returns, the habits array has the length of the
    input array and its [k]-th habit is built from the [k]-th entry. *)
Lemma normalizeState_keeps_entries (host : Host) (source : value) (t : nat)
    (entries : list value) (st : value) :
  get source k_habits = VArr entries ->
  result (normalizeState host source) t = Returns st ->
  length (habits_of st) = length entries
  /\ forall k h, entries !! k = Some h ->
       exists id, habits_of st !! k
                  = Some (habit_object id (habit_name h) (habit_log h))
                  /\ id_choice host h k id.
Proof.
  intros Hentries H.
  assert (habitsInput_of (raw_of source) = entries) as Hin.
  { unfold habitsInput_of, raw_of.
    destruct source; simpl in Hentries; try discriminate.
    simpl. unfold get. by destruct (props !! k_habits) as [[]|]; simpl in *; try discriminate; injection Hentries as ->. }
  apply normalizeState_returns in H as (out & -> & Hlen & Hout).
  rewrite habits_of_state_object, Hin in *. split; [done|].
  intros k h Hk. apply Hout in Hk as (id & Ho & _ & Hc). eauto.
Qed.

(** C10 (code defect, the one of C1).  The claim wants a habits array of
    the input's length for every input whose [habits] is an array.  The
    array of [{"habits":[null,{"id":[{"toString":null}],"name":"Run"},7]}]
    has three entries; the id of the second is an array, whose coercion
    coerces its element, an object that owns a non-callable [toString]:
    [normalizeState] throws and returns no array at all. *)
Theorem normalizeState_returns_nothing_on_uncoercible_id (host : Host) (t : nat) :
  (exists entries, get uncoercible_nested_id_state k_habits = VArr entries
                   /\ length entries = 3%nat)
  /\ result (normalizeState host uncoercible_nested_id_state) t = Throws TypeError.
Proof.
  split; [eexists; split; reflexivity|].
  destruct host as [[] bits clock]; reflexivity.
Qed.

(* ===================================================================== *)
(** ** Normalisation: ids *)
(* ===================================================================== *)




(* ===================================================================== *)
(** ** Normalisation: names *)
(* ===================================================================== *)

(** C8 (as stated, fails).  The name [" Water "] is a string that is not
    blank after trimming, and the habit built from its entry is not named
    [" Water "]: it carries the trimmed ["Water"]. *)
Lemma untrimmed_name_is_not_kept :
  get mixed_habit k_name = VStr (lit " Water ")
  /\ trim (lit " Water ") <> []
  /\ get (habit_at mixed_state_normalized 0) k_name = VStr (lit "Water")
  /\ VStr (lit "Water") <> VStr (lit " Water ").
Proof. vm_compute. repeat split; discriminate. Qed.

(** C8 (amended).  Whenever [normalizeState] returns, the habit built from
    an entry whose name is a string that is not blank after trimming is
    named by that string with the white space at both ends removed, and in
    every other case (no name, a name that is no string, an empty or blank
    one) by the placeholder "Untitled habit". *)
Theorem normalizeState_name (host : Host) (source : value) (t : nat)
    (entries : list value) (st : value) (k : nat) (h o : value) :
  get source k_habits = VArr entries ->
  result (normalizeState host source) t = Returns st ->
  entries !! k = Some h ->
  habits_of st !! k = Some o ->
  (forall n, get h k_name = VStr n -> trim n <> [] -> get o k_name = VStr (trim n))
  /\ ((forall n, get h k_name = VStr n -> trim n = []) ->
      get o k_name = VStr placeholder_name).
Proof.
  intros Hentries Hret Hh Ho.
  destruct (normalizeState_keeps_entries _ _ _ _ _ Hentries Hret) as [_ Hk].
  destruct (Hk _ _ Hh) as (id & Ho' & _). rewrite Ho in Ho'. injection Ho' as ->.
  rewrite get_habit_object_name.
  destruct (habit_name_cases h) as [(n & Hn & Hne & ->) | [-> Hblank]]; split.
  - intros n' Hn' _. congruence.
  - intros Hall. by apply Hall in Hn.
  - intros n Hn Hne. by apply Hblank in Hn.
  - done.
Qed.

Lemma normalizeState_name_witness :
  get (habit_at mixed_state_normalized 0) k_name = VStr (trim (lit " Water "))
  /\ get (habit_at mixed_state_normalized 1) k_name = VStr placeholder_name
  /\ get (habit_at mixed_state_normalized 2) k_name = VStr placeholder_name.
Proof.
  split; [|split].
  - apply (normalizeState_name sample_host mixed_state 0
             [mixed_habit; blank_habit; VNull] mixed_state_normalized 0
             mixed_habit (habit_at mixed_state_normalized 0));
      vm_compute; try reflexivity; discriminate.
  - apply (normalizeState_name sample_host mixed_state 0
             [mixed_habit; blank_habit; VNull] mixed_state_normalized 1
             blank_habit (habit_at mixed_state_normalized 1));
      try (vm_compute; reflexivity).
    intros n [= <-]. reflexivity.
  - apply (normalizeState_name sample_host mixed_state 0
             [mixed_habit; blank_habit; VNull] mixed_state_normalized 2
             VNull (habit_at mixed_state_normalized 2));
      try (vm_compute; reflexivity).
    intros n [=].
Defined.

(* ===================================================================== *)
(** ** Normalisation: fixed points *)
(* ===================================================================== *)

Lemma normalized_habit_object (id name : jsstring) (log : gmap jsstring value) :
  id <> [] -> name <> [] -> trim name = name ->
  normalized_habit (habit_object id name log) = true.
Proof.
  intros Hid Hname Htrim. unfold normalized_habit, habit_object.
  destruct (key_lookups (VStr id) (VStr name) (VObj log)) as (-> & -> & ->).
  unfold nonempty.
  rewrite (bool_decide_eq_false_2 (id = [])), (bool_decide_eq_false_2 (name = [])) by done.
  rewrite (bool_decide_eq_true_2 _ Htrim).
  rewrite !andb_true_r. by vm_compute.
Qed.

(** A normalized habit is the object literal of its three fields. *)
Lemma normalized_habit_inv (h : value) :
  normalized_habit h = true ->
  exists id name log, h = habit_object id name log
                      /\ id <> [] /\ name <> [] /\ trim name = name.
Proof.
  destruct h as [| | | | | |props]; try discriminate. simpl.
  intros [Hdom H]%andb_true_iff. apply bool_decide_eq_true in Hdom.
  destruct (props !! k_id) as [[| | | |id| |]|] eqn:Hid; try discriminate.
  destruct (props !! k_name) as [[| | | |name| |]|] eqn:Hname; try discriminate.
  destruct (props !! k_log) as [[| | | | | |log]|] eqn:Hlog; try discriminate.
  apply andb_true_iff in H as [[H1 H2]%andb_true_iff H3].
  unfold nonempty in *. apply negb_true_iff, bool_decide_eq_false in H1, H2.
  apply bool_decide_eq_true in H3.
  exists id, name, log. repeat split; try done.
  unfold habit_object. f_equal. apply map_eq. intros k.
  destruct (decide (k = k_id)) as [->|Hk1].
  { rewrite Hid. symmetry. apply key_lookups. }
  destruct (decide (k = k_name)) as [->|Hk2].
  { rewrite Hname. symmetry. apply key_lookups. }
  destruct (decide (k = k_log)) as [->|Hk3].
  { rewrite Hlog. symmetry. apply key_lookups. }
  rewrite !lookup_insert_ne, lookup_singleton_ne by done.
  apply not_elem_of_dom. rewrite Hdom.
  rewrite ?elem_of_union, !elem_of_singleton. tauto.
Qed.

Lemma normalized_inv (st : value) :
  normalized st = true ->
  exists habits, st = state_object habits
                 /\ forallb normalized_habit habits = true.
Proof.
  destruct st as [| | | | | |props]; try discriminate. simpl.
  intros [Hdom H]%andb_true_iff. apply bool_decide_eq_true in Hdom.
  destruct (props !! k_habits) as [[| | | | |habits|]|] eqn:Hh; try discriminate.
  exists habits. split; [|done].
  unfold state_object. f_equal. apply map_eq. intros k.
  destruct (decide (k = k_habits)) as [->|Hk].
  { rewrite Hh. by rewrite lookup_singleton_eq. }
  rewrite lookup_singleton_ne by done.
  apply not_elem_of_dom. rewrite Hdom.
  rewrite ?elem_of_union, !elem_of_singleton. tauto.
Qed.

Lemma normalized_state_object (habits : list value) :
  forallb normalized_habit habits = true -> normalized (state_object habits) = true.
Proof.
  intros H. unfold normalized, state_object.
  rewrite lookup_singleton_eq, H, andb_true_r.
  apply bool_decide_eq_true. by rewrite dom_singleton_L.
Qed.

Lemma habit_log_object id name log : habit_log (habit_object id name log) = log.
Proof.
  unfold habit_log. rewrite get_habit_object_log. reflexivity.
Qed.

Lemma habit_name_object id name log :
  name <> [] -> trim name = name -> habit_name (habit_object id name log) = name.
Proof.
  intros Hne Htrim. unfold habit_name. rewrite get_habit_object_name, Htrim.
  cbn [truthy habit_object is_string_type typeof andb].
  by rewrite bool_decide_eq_false_2.
Qed.

(** A normalized habit is rebuilt as it is, without a call to the host. *)
Lemma normalizeHabit_normalized (host : Host) (h : value) (index t : nat) :
  normalized_habit h = true -> normalizeHabit host h index t = (Returns h, t).
Proof.
  intros (id & name & log & -> & Hid & Hname & Htrim)%normalized_habit_inv.
  unfold normalizeHabit, bind, ret, habit_id.
  rewrite get_habit_object_id, habit_log_object, habit_name_object by done.
  simpl. unfold bind, lift, ret. simpl. by rewrite bool_decide_eq_false_2.
Qed.

Lemma map_indexed_normalized (host : Host) (habits : list value) (index t : nat) :
  forallb normalized_habit habits = true ->
  map_indexed (normalizeHabit host) habits index t = (Returns habits, t).
Proof.
  revert index. induction habits as [|h rest IH]; intros index; simpl; [done|].
  intros [Hh Hrest]%andb_true_iff. unfold bind, ret.
  by rewrite normalizeHabit_normalized, IH.
Qed.

(** [normalizeState] returns a normalized state as it is: normalized states
    are its fixed points, on every host and at any time. *)
Lemma normalizeState_normalized (host : Host) (st : value) (t : nat) :
  normalized st = true -> normalizeState host st t = (Returns st, t).
Proof.
  intros (habits & -> & Hall)%normalized_inv.
  unfold normalizeState, bind, ret.
  replace (habitsInput_of (raw_of (state_object habits))) with habits by done.
  by rewrite map_indexed_normalized.
Qed.

(** What [normalizeState] returns is normalized. *)
Lemma normalizeState_returns_normalized (host : Host) (source : value) (t : nat) (st : value) :
  result (normalizeState host source) t = Returns st -> normalized st = true.
Proof.
  intros (out & -> & Hlen & Hout)%normalizeState_returns.
  apply normalized_state_object, forallb_forall. intros o Ho.
  apply list_elem_of_In, list_elem_of_lookup in Ho as [k Hk].
  destruct (habitsInput_of (raw_of source) !! k) as [h|] eqn:Hh.
  - apply Hout in Hh as (id & Hid & Hne & _).
    rewrite Hk in Hid. injection Hid as ->.
    apply normalized_habit_object;
      [done|apply habit_name_nonempty|apply habit_name_trimmed].
  - apply lookup_ge_None in Hh. apply lookup_lt_Some in Hk. lia.
Qed.

(** Normalizing the very state a call returned gives that state back. *)
Lemma normalizeState_fixed_point (host host' : Host) (source : value) (t t' : nat) (st : value) :
  result (normalizeState host source) t = Returns st ->
  result (normalizeState host' st) t' = Returns st.
Proof.
  intros H%normalizeState_returns_normalized.
  unfold result. by rewrite normalizeState_normalized.
Qed.

(* ===================================================================== *)
(** ** Normalisation: idempotence *)
(* ===================================================================== *)

Lemma habit_id_coerces (host : Host) (h : value) (index t : nat) :
  id_coerces h = true ->
  coerced_id h <> []
  /\ habit_id host h index t = (Returns (coerced_id h), t).
Proof.
  unfold id_coerces, coerced_id, habit_id. intros [Ht Hs]%andb_true_iff.
  rewrite Ht, (truthy_get _ _ Ht). simpl. unfold bind, lift.
  destruct (ToString (get h k_id)) as [s|e]; [|discriminate].
  unfold nonempty in Hs. simpl. rewrite Hs.
  split; [|done]. by apply negb_true_iff, bool_decide_eq_false in Hs.
Qed.

Lemma normalizeHabit_coerces (host : Host) (h : value) (index t : nat) :
  id_coerces h = true ->
  normalizeHabit host h index t
  = (Returns (habit_object (coerced_id h) (habit_name h) (habit_log h)), t).
Proof.
  intros H. unfold normalizeHabit, bind.
  destruct (habit_id_coerces host h index t H) as [_ ->]. done.
Qed.

(** With ids that coerce, the result of [normalizeState] is a function of
    its argument alone: no call reaches the host. *)
Lemma map_indexed_coerces (host : Host) (l : list value) (index t : nat) :
  forallb id_coerces l = true ->
  map_indexed (normalizeHabit host) l index t
  = (Returns (map (fun h => habit_object (coerced_id h) (habit_name h) (habit_log h)) l), t).
Proof.
  revert index. induction l as [|h rest IH]; intros index; [done|].
  cbn [forallb map map_indexed]. intros [Hh Hrest]%andb_true_iff.
  unfold bind at 1. rewrite (normalizeHabit_coerces host h index t Hh).
  unfold bind, ret. by rewrite IH.
Qed.

Lemma normalizeState_coerces (host : Host) (source : value) (t : nat) :
  forallb id_coerces (entries_of source) = true ->
  normalizeState host source t
  = (Returns (state_object
                (map (fun h => habit_object (coerced_id h) (habit_name h) (habit_log h))
                     (entries_of source))), t).
Proof.
  intros H. unfold normalizeState, bind, ret.
  fold (entries_of source). by rewrite map_indexed_coerces.
Qed.

(** C5 (as stated, fails).  The one entry of [{"habits":[{"id":[],...}]}]
    carries a truthy id, the empty array.  Its coercion is empty, so every
    call of [normalizeState] on that input generates an id: called when the
    host has made no call yet it returns a state, and normalizing that
    state once more keeps it, but [normalizeState] of the same input called
    next returns a state with another id. *)
Lemma renormalizing_differs_from_normalizing_again :
  forallb id_truthy (entries_of empty_array_id_state) = true
  /\ normalized_twice sample_host empty_array_id_state 0 1
     <> result (normalizeState sample_host empty_array_id_state) 1.
Proof.
  split; [reflexivity|]. intros H.
  apply (f_equal (fun o => get (habit_at (returned o) 0) k_id)) in H.
  vm_compute in H. discriminate.
Qed.

(** C5 (amended).  Normalizing the state that a call of [normalizeState]
    returned gives that state back: what [normalizeState] returns is a
    fixed point.  And whenever every entry of the input's habits carries a
    truthy id whose string coercion is not empty, [normalizeState] returns
    the same state at every call, so that
    [normalizeState(normalizeState(x))] is equal to [normalizeState(x)]. *)
Theorem normalizeState_idempotent (host : Host) (source : value) (t t' t'' : nat) :
  (forall st, result (normalizeState host source) t = Returns st ->
              result (normalizeState host st) t' = Returns st)
  /\ (forallb id_coerces (entries_of source) = true ->
      exists st, result (normalizeState host source) t'' = Returns st
                 /\ normalized_twice host source t t' = Returns st).
Proof.
  split; [intros st; apply normalizeState_fixed_point|].
  intros H. eexists. unfold normalized_twice, result.
  rewrite !(normalizeState_coerces host source) by done. simpl.
  split; [reflexivity|].
  apply (normalizeState_fixed_point host host source t t').
  unfold result. by rewrite normalizeState_coerces.
Qed.

Lemma normalizeState_idempotent_witness :
  result (normalizeState sample_host mixed_state_normalized) 4
  = Returns mixed_state_normalized
  /\ forallb id_coerces (entries_of identified_state) = true
  /\ exists st, result (normalizeState legacy_host identified_state) 5 = Returns st
                /\ normalized_twice legacy_host identified_state 0 3 = Returns st.
Proof.
  split; [|split].
  - apply (proj1 (normalizeState_idempotent sample_host mixed_state 0 4 0)).
    by vm_compute.
  - reflexivity.
  - apply (proj2 (normalizeState_idempotent legacy_host identified_state 0 3 5)).
    reflexivity.
Defined.

(* ===================================================================== *)
(** ** The calendar *)
(* ===================================================================== *)

(** [YearFromDay] finds the year that contains the day. *)
Lemma YearFromDay_spec (day : Z) :
  DayFromYear (YearFromDay day) <= day < DayFromYear (YearFromDay day + 1).
Proof.
  unfold YearFromDay.
  destruct (Z.ltb_spec day (DayFromYear (1970 + 400 * day / 146097))) as [H1|H1].
  - replace (1970 + 400 * day / 146097 - 1 + 1) with (1970 + 400 * day / 146097) by lia.
    split; [|done]. unfold DayFromYear in *. Z.div_mod_to_equations. lia.
  - destruct (Z.leb_spec (DayFromYear (1970 + 400 * day / 146097 + 1)) day) as [H2|H2].
    + split; [done|]. unfold DayFromYear in *. Z.div_mod_to_equations. lia.
    + done.
Qed.

Lemma MonthFromDay_range (day : Z) : 0 <= MonthFromDay day < 12.
Proof.
  unfold MonthFromDay.
  repeat match goal with |- context [if ?c then _ else _] => destruct c end; lia.
Qed.

(** Setting the date to [getDate() - i] moves a date [i] days back. *)
Lemma setDate_back (today : Date) (i : Z) :
  setDate today (getDate today - i) = day_before today i.
Proof.
  unfold setDate, day_before, getDate, getFullYear, getMonth. f_equal.
  unfold MakeDay, DateFromDay, DayWithinYear.
  pose proof (MonthFromDay_range (local_day today)) as Hm.
  rewrite Z.div_small, Z.mod_small, Z.add_0_r by done. lia.
Qed.

(* ===================================================================== *)
(** ** Streaks *)
(* ===================================================================== *)

(** The loop adds to the streak the marked days it walks over and stops at
    the first day that is not marked, or when the iterations run out. *)
Lemma streak_loop_spec (log : value) (today : Date) (remaining i streak : nat) :
  exists run : nat,
    streak_loop log today (Z.of_nat i) remaining streak = (streak + run)%nat
    /\ (run <= remaining)%nat
    /\ (forall j, (j < run)%nat -> marked log today (i + j) = true)
    /\ ((run < remaining)%nat -> marked log today (i + run) = false).
Proof.
  revert i streak. induction remaining as [|remaining IH]; intros i streak.
  - exists 0%nat. simpl. repeat split; [lia|lia|intros; lia|intros; lia].
  - cbn [streak_loop]. rewrite setDate_back. fold (marked log today i).
    destruct (marked log today i) eqn:Hi.
    + replace (Z.of_nat i + 1) with (Z.of_nat (S i)) by lia.
      destruct (IH (S i) (S streak)) as (run & Heq & Hle & Hall & Hstop).
      exists (S run). rewrite Heq. repeat split; [lia|lia| |].
      * intros [|j] Hj; [by rewrite Nat.add_0_r|].
        replace (i + S j)%nat with (S i + j)%nat by lia. apply Hall. lia.
      * intros Hlt. replace (i + S run)%nat with (S i + run)%nat by lia.
        apply Hstop. lia.
    + exists 0%nat. repeat split; [lia|lia|intros; lia|].
      intros _. by rewrite Nat.add_0_r.
Qed.

(** The streak is at most 365, every day it counts is marked, and below
    365 the day after the last counted one is not. *)
Lemma computeStreak_spec (today : Date) (habit : value) :
  truthy (get habit k_log) = true ->
  (computeStreak today habit <= 365)%nat
  /\ (forall i, (i < computeStreak today habit)%nat ->
                marked (get habit k_log) today i = true)
  /\ ((computeStreak today habit < 365)%nat ->
      marked (get habit k_log) today (computeStreak today habit) = false).
Proof.
  intros Hlog. unfold computeStreak.
  rewrite Hlog, (truthy_get _ _ Hlog). cbn [negb orb].
  destruct (streak_loop_spec (get habit k_log) today 365 0 0)
    as (run & Heq & Hle & Hall & Hstop).
  change (Z.of_nat 0) with 0 in Heq. rewrite Heq, Nat.add_0_l.
  repeat split; [done|apply Hall|apply Hstop].
Qed.

Lemma computeStreak_no_log (today : Date) (habit : value) :
  truthy habit = false \/ truthy (get habit k_log) = false ->
  computeStreak today habit = 0%nat.
Proof.
  unfold computeStreak. intros [->| ->]; [done|]. by rewrite orb_true_r.
Qed.

Lemma computeStreak_le_365 (today : Date) (habit : value) :
  (computeStreak today habit <= 365)%nat.
Proof.
  destruct (truthy (get habit k_log)) eqn:Hlog.
  - by apply computeStreak_spec.
  - rewrite computeStreak_no_log by auto. lia.
Qed.






(** C4.  [computeStreak(habit)] is at most 365 whatever the habit and its
    log are, and it is exactly 365 when the log maps the keys of all of the
    last 400 days (today and the 399 days before it) to [true]. *)
Theorem computeStreak_bound (today : Date) (habit : value) :
  (computeStreak today habit <= 365)%nat
  /\ ((forall i, (i < 400)%nat ->
         get (get habit k_log) (toKey (day_before today (Z.of_nat i))) = VBool true) ->
      computeStreak today habit = 365%nat).
Proof.
  split; [apply computeStreak_le_365|]. intros Hall.
  assert (truthy (get habit k_log) = true) as Hlog.
  { pose proof (Hall 0%nat ltac:(lia)) as H0.
    destruct (get habit k_log); simpl in H0; try discriminate. done. }
  destruct (computeStreak_spec today habit Hlog) as (Hle & _ & Hstop).
  destruct (Nat.eq_dec (computeStreak today habit) 365%nat) as [|Hne]; [done|].
  assert (computeStreak today habit < 365)%nat as Hlt by lia.
  apply Hstop in Hlt. unfold marked in Hlt.
  rewrite Hall in Hlt by lia. discriminate.
Qed.

Lemma is_true_eq (v : value) : is_true v = true -> v = VBool true.
Proof. by destruct v as [| |[]| | | |]. Qed.

Lemma unbroken_log_true :
  forallb (fun i => is_true (get (get unbroken_habit k_log)
                               (toKey (day_before sample_today (Z.of_nat i)))))
          (seq 0 400) = true.
Proof. by vm_compute. Qed.

Lemma computeStreak_bound_witness :
  (computeStreak sample_today unbroken_habit <= 365)%nat
  /\ computeStreak sample_today unbroken_habit = 365%nat.
Proof.
  split.
  - apply (proj1 (computeStreak_bound sample_today unbroken_habit)).
  - apply (proj2 (computeStreak_bound sample_today unbroken_habit)).
    intros i Hi. apply is_true_eq.
    apply (proj1 (forallb_forall _ _) unbroken_log_true i).
    apply in_seq. lia.
Defined.

(* ===================================================================== *)
(** ** Serialisation *)
(* ===================================================================== *)

Lemma representable_object (props : gmap jsstring value) :
  representable (VObj props) = true ->
  forall k v, props !! k = Some v -> representable v = true.
Proof.
  simpl. intros H k v Hk.
  assert ((k, representable v) ∈ map_to_list (representable <$> props)) as Hin.
  { apply elem_of_map_to_list. by rewrite lookup_fmap, Hk. }
  eapply forallb_forall in H; [|apply list_elem_of_In, Hin]. done.
Qed.

(** A representable value serialises to itself. *)
Lemma serialized_representable (v : value) :
  representable v = true -> serialized v = Some v.
Proof.
  induction v as [| |b|n|s|elems IH|props IH] using value_induction; try done.
  - by destruct n.
  - intros H. cbn [serialized]. do 2 f_equal.
    cbn [representable] in H. induction IH as [|x rest Hx _ IHrest]; [done|].
    simpl in H. apply andb_true_iff in H as [H1 H2].
    simpl. by rewrite (Hx H1), (IHrest H2).
  - intros H. cbn [serialized]. do 2 f_equal. apply map_eq. intros k.
    rewrite lookup_omap. destruct (props !! k) as [v|] eqn:Hk; [|done].
    simpl. apply (IH k v Hk). by apply (representable_object props H k).
Qed.

Lemma serialized_habit_object (id name : jsstring) (log : gmap jsstring value) :
  serialized (habit_object id name log)
  = Some (habit_object id name (omap serialized log)).
Proof.
  unfold habit_object. cbn [serialized]. do 2 f_equal.
Qed.

(** What a normalized state serialises to is normalized again: the logs go
    through JSON, ids and names stay. *)
Lemma serialized_normalized (st : value) :
  normalized st = true ->
  exists d, serialized st = Some d /\ normalized d = true
            /\ (forallb (fun h => representable (get h k_log)) (habits_of st) = true
                -> d = st).
Proof.
  intros (habits & -> & Hall)%normalized_inv.
  exists (state_object (map (fun h => default VNull (serialized h)) habits)).
  split; [|split].
  - unfold state_object. cbn [serialized]. do 2 f_equal.
  - apply normalized_state_object.
    induction habits as [|h rest IH]; [done|].
    simpl in Hall. apply andb_true_iff in Hall as [Hh Hrest].
    simpl. rewrite (IH Hrest), andb_true_r.
    apply normalized_habit_inv in Hh as (id & name & log & -> & ? & ? & ?).
    rewrite serialized_habit_object.
    change (normalized_habit (habit_object id name (omap serialized log)) = true).
    by apply normalized_habit_object.
  - rewrite habits_of_state_object. intros Hrep. f_equal.
    induction habits as [|h rest IH]; [done|].
    simpl in Hall, Hrep.
    apply andb_true_iff in Hall as [Hh Hrest].
    apply andb_true_iff in Hrep as [Hr Hreps].
    cbn [map]. rewrite (IH Hrest Hreps). f_equal.
    apply normalized_habit_inv in Hh as (id & name & log & -> & ? & ? & ?).
    rewrite serialized_habit_object.
    change (habit_object id name (omap serialized log) = habit_object id name log).
    rewrite get_habit_object_log in Hr.
    apply serialized_representable in Hr. cbn [serialized] in Hr. congruence.
Qed.

(* ===================================================================== *)
(** ** saveState and loadState *)
(* ===================================================================== *)

(** A call of [saveState] whose normalisation returns: the state is
    replaced and its serialisation stored. *)
Lemma saveState_returns (host : Host) (x : value) (a : App) (st : value) :
  result (normalizeState host x) (host_calls a) = Returns st ->
  exists t',
    saveState host x a
    = (Returns tt,
       {| state := st;
          localStorage := <[STORAGE_KEY := JSON_stringify st]> (localStorage a);
          host_calls := t';
          effects := effects a ++ [SaveState x] |}).
Proof.
  unfold saveState, run, result. simpl.
  destruct (normalizeState host x (host_calls a)) as [[s|e] t']; simpl; [|discriminate].
  intros [= ->]. by exists t'.
Qed.

(** A call of [saveState] whose normalisation throws changes neither the
    state nor the storage. *)
Lemma saveState_throws (host : Host) (x : value) (a : App) (e : exn) :
  result (normalizeState host x) (host_calls a) = Throws e ->
  fst (saveState host x a) = Throws e
  /\ state (snd (saveState host x a)) = state a
  /\ localStorage (snd (saveState host x a)) = localStorage a.
Proof.
  unfold saveState, run, result. simpl.
  destruct (normalizeState host x (host_calls a)) as [[s|e'] t']; simpl; [discriminate|].
  by intros [= ->].
Qed.





(* ===================================================================== *)
(** ** Import *)
(* ===================================================================== *)

Lemma import_attempt_rejected (host : Host) (t : text) (a : App) :
  rejected_import t = true ->
  exists e, import_attempt host (Returns t) a = (Throws e, a).
Proof.
  unfold rejected_import, import_attempt.
  destruct (JSON_parse t) as [data|e]; [|by eexists].
  intros Hnot. unfold member.
  destruct data; try (by eexists); simpl in Hnot |- *; rewrite ?Hnot; by eexists.
Qed.

(** C6.  When the text of the imported file does not parse, or parses to a
    value whose [habits] is not an array (as [{"habits":"not-an-array"}]
    does), the import handler leaves the state and the storage as they
    are, and all it does is to show the failure notice: [saveState] is not
    called and nothing is rendered. *)
Theorem import_rejected_leaves_state (host : Host) (t : text) (a : App) :
  rejected_import t = true ->
  state (event_import host (Some (Returns t)) a) = state a
  /\ localStorage (event_import host (Some (Returns t)) a) = localStorage a
  /\ effects (event_import host (Some (Returns t)) a)
     = effects a ++ [Alert import_failed].
Proof.
  intros H. unfold event_import.
  destruct (import_attempt_rejected host t a H) as [e ->]. done.
Qed.

Lemma import_rejected_leaves_state_witness :
  (rejected_import not_an_array_text = true
   /\ state (event_import sample_host (Some (Returns not_an_array_text)) fresh_app)
      = state fresh_app
   /\ localStorage (event_import sample_host (Some (Returns not_an_array_text)) fresh_app)
      = localStorage fresh_app
   /\ effects (event_import sample_host (Some (Returns not_an_array_text)) fresh_app)
      = effects fresh_app ++ [Alert import_failed])
  /\ (rejected_import garbled_text = true
      /\ effects (event_import sample_host (Some (Returns garbled_text)) fresh_app)
         = effects fresh_app ++ [Alert import_failed]).
Proof.
  split; (split; [reflexivity|]).
  - apply (import_rejected_leaves_state sample_host not_an_array_text fresh_app).
    reflexivity.
  - apply (import_rejected_leaves_state sample_host garbled_text fresh_app).
    reflexivity.
Defined.

(* ===================================================================== *)
(** ** Toggling a day *)
(* ===================================================================== *)

Lemma assign_other (props : gmap jsstring value) (k k' : jsstring) (v : value) :
  k' <> k -> assign props k v !! k' = props !! k'.
Proof.
  intros Hne. unfold assign.
  destruct (props !! k); [by rewrite lookup_insert_ne|].
  case_bool_decide; [done|by rewrite lookup_insert_ne].
Qed.

(** [{ ...h, log }] for a habit built by [normalizeState]. *)
Lemma habit_object_with_log (id name : jsstring) (log log' : gmap jsstring value) :
  VObj (<[k_log := VObj log']> (spread (habit_object id name log)))
  = habit_object id name log'.
Proof. by vm_compute. Qed.

(** What the toggle callback does to a normalized habit. *)
Lemma toggle_habit_normalized (habitId dayKey : jsstring) (h : value) :
  normalized_habit h = true ->
  exists h', toggle_habit habitId dayKey h = Returns h'
             /\ normalized_habit h' = true
             /\ (get h k_id <> VStr habitId -> h' = h)
             /\ get h' k_id = get h k_id
             /\ get h' k_name = get h k_name
             /\ forall key, key <> dayKey ->
                  get (get h' k_log) key = get (get h k_log) key.
Proof.
  intros Hnorm.
  destruct (normalized_habit_inv h Hnorm) as (id & name & log & -> & Hid & Hname & Htrim).
  unfold toggle_habit, member. cbn [habit_object outcome_bind].
  fold (habit_object id name log).
  rewrite get_habit_object_id. cbn [strict_equal_string].
  case_bool_decide as Heq; cbn [negb].
  - subst habitId. rewrite get_habit_object_log. cbn [spread].
    set (log' := assign log dayKey (VBool (negb (truthy_at log dayKey)))).
    exists (habit_object id name log').
    rewrite (habit_object_with_log id name log log').
    split; [done|]. split; [by apply normalized_habit_object|].
    split; [done|].
    rewrite !get_habit_object_id, !get_habit_object_name, !get_habit_object_log.
    repeat split. intros key Hkey. unfold get, log'. by rewrite assign_other.
  - exists (habit_object id name log). repeat split; try done.
Qed.

Lemma map_outcome_normalized (habitId dayKey : jsstring) (habits : list value) :
  forallb normalized_habit habits = true ->
  exists habits',
    map_outcome (toggle_habit habitId dayKey) habits = Returns habits'
    /\ forallb normalized_habit habits' = true
    /\ length habits' = length habits
    /\ forall k h, habits !! k = Some h ->
         exists h', habits' !! k = Some h'
                    /\ toggle_habit habitId dayKey h = Returns h'.
Proof.
  induction habits as [|h rest IH]; intros Hall.
  - exists []. repeat split; try done.
  - simpl in Hall. apply andb_true_iff in Hall as [Hh Hrest].
    destruct (IH Hrest) as (rest' & Hmap & Hnorm & Hlen & Hk).
    destruct (toggle_habit_normalized habitId dayKey h Hh) as (h' & Ht & Hn' & _).
    exists (h' :: rest'). cbn [map_outcome]. rewrite Ht, Hmap. cbn [outcome_bind].
    split; [done|]. split; [simpl; by rewrite Hn', Hnorm|].
    split; [simpl; by f_equal|].
    intros [|k] x Hx; simpl in Hx.
    + injection Hx as <-. by exists h'.
    + by apply Hk.
Qed.

(** C9.  On a normalized state (all of whose habits then carry non-empty
    ids), the day-cell click handler for [habitId] and [dayKey] keeps the
    number and the order of the habits, leaves every habit whose id differs
    from [habitId] as it is, and in every habit keeps the id, the name and
    the log entry of every day key other than [dayKey]. *)
Theorem toggle_changes_one_entry (host : Host) (habitId dayKey : jsstring) (a : App) :
  normalized (state a) = true ->
  length (habits_of (state (event_rowClickHandlers host (DayCell habitId dayKey) a)))
  = length (habits_of (state a))
  /\ forall k h, habits_of (state a) !! k = Some h ->
       exists h', habits_of (state (event_rowClickHandlers host (DayCell habitId dayKey) a)) !! k = Some h'
                  /\ (get h k_id <> VStr habitId -> h' = h)
                  /\ get h' k_id = get h k_id
                  /\ get h' k_name = get h k_name
                  /\ forall key, key <> dayKey ->
                       get (get h' k_log) key = get (get h k_log) key.
Proof.
  intros Hnorm.
  destruct (normalized_inv _ Hnorm) as (habits & Hst & Hall).
  destruct (map_outcome_normalized habitId dayKey habits Hall)
    as (habits' & Hmap & Hnorm' & Hlen & Hk).
  unfold event_rowClickHandlers, toggle_day, map_habits. rewrite Hst.
  cbn [member state_object outcome_bind]. fold (state_object habits).
  rewrite get_state_object, Hmap.
  assert (result (normalizeState host (state_object habits')) (host_calls (emit (SaveState (state_object habits')) a))
          = Returns (state_object habits')) as Hret.
  { unfold result. rewrite normalizeState_normalized; [done|].
    by apply normalized_state_object. }
  unfold saveState, run. unfold result in Hret.
  destruct (normalizeState host (state_object habits') _) as [[s|e] t'];
    simpl in Hret; [|discriminate]. injection Hret as ->.
  cbn [render emit state]. rewrite !habits_of_state_object.
  split; [done|]. intros k h Hh.
  destruct (Hk k h Hh) as (h' & Hh' & Ht).
  exists h'. split; [done|].
  assert (normalized_habit h = true) as Hn.
  { eapply forallb_forall in Hall; [exact Hall|].
    apply list_elem_of_In, list_elem_of_lookup. eauto. }
  destruct (toggle_habit_normalized habitId dayKey h Hn) as (h'' & Ht' & _ & Hframe).
  rewrite Ht in Ht'. injection Ht' as <-. exact Hframe.
Qed.

Lemma toggle_changes_one_entry_witness :
  normalized (state sample_app) = true
  /\ length (habits_of (state (event_rowClickHandlers sample_host (DayCell (lit "7") (lit "2025-11-02"))
                                 sample_app)))
     = length (habits_of (state sample_app))
  /\ forall k h, habits_of (state sample_app) !! k = Some h ->
       exists h', habits_of (state (event_rowClickHandlers sample_host (DayCell (lit "7") (lit "2025-11-02")) sample_app)) !! k = Some h'
                  /\ (get h k_id <> VStr (lit "7") -> h' = h)
                  /\ get h' k_id = get h k_id
                  /\ get h' k_name = get h k_name
                  /\ forall key, key <> lit "2025-11-02" ->
                       get (get h' k_log) key = get (get h k_log) key.
Proof.
  split; [by vm_compute|].
  apply (toggle_changes_one_entry sample_host (lit "7") (lit "2025-11-02") sample_app).
  by vm_compute.
Defined.

(* ===================================================================== *)
(** ** The examples of the specification *)
(* ===================================================================== *)

(** Today and yesterday done, the day before not: a streak of 2. *)
Example streak_of_two :
  computeStreak sample_today
    (habit_with_log [("2025-11-03"%string, VBool true);
                     ("2025-11-02"%string, VBool true);
                     ("2025-11-01"%string, VBool false)]) = 2%nat.
Proof. by vm_compute. Qed.

Example streak_of_empty_log :
  computeStreak sample_today (habit_with_log []) = 0%nat.
Proof. by vm_compute. Qed.

(** A gap today breaks the streak at once. *)
Example streak_with_gap_today :
  computeStreak sample_today
    (habit_with_log [("2025-11-03"%string, VBool false);
                     ("2025-11-02"%string, VBool true)]) = 0%nat.
Proof. by vm_compute. Qed.

(** The streak walks across the ends of months and years. *)
Example streak_across_new_year :
  computeStreak {| local_day := 20454; time_within_day := 0 |}
    (habit_with_log [("2026-01-01"%string, num 1);
                     ("2025-12-31"%string, str "done");
                     ("2025-12-30"%string, VBool true);
                     ("2025-12-29"%string, num 0)]) = 3%nat.
Proof. by vm_compute. Qed.

Example week_of_sample_today :
  buildWeek sample_today
  = map lit ["2025-10-28"; "2025-10-29"; "2025-10-30"; "2025-10-31";
             "2025-11-01"; "2025-11-02"; "2025-11-03"]%string.
Proof. by vm_compute. Qed.

Example leap_day_key :
  toKey {| local_day := 11016; time_within_day := 0 |} = lit "2000-02-29".
Proof. by vm_compute. Qed.

(** Toggling an unmarked day marks it, toggling it again unmarks it, and a
    successful import replaces the state. *)
Example toggle_twice :
  let once := event_rowClickHandlers sample_host (DayCell (lit "7") (lit "2025-11-02")) sample_app in
  let twice := event_rowClickHandlers sample_host (DayCell (lit "7") (lit "2025-11-02")) once in
  get (get (habit_at (state once) 0) k_log) (lit "2025-11-02") = VBool true
  /\ get (get (habit_at (state twice) 0) k_log) (lit "2025-11-02") = VBool false
  /\ computeStreak sample_today (habit_at (state once) 0) = 2%nat
  /\ computeStreak sample_today (habit_at (state twice) 0) = 1%nat.
Proof. by vm_compute. Qed.

Example import_accepted :
  let a := event_import sample_host (Some (Returns (JsonText mixed_state))) fresh_app in
  state a = mixed_state_normalized
  /\ effects a = [SaveState mixed_state; Render; Alert import_complete].
Proof. by vm_compute. Qed.

(** An import that passes the check on [habits] and then fails in
    [normalizeState] is reported as failed, and changes nothing. *)
Example import_of_uncoercible_id :
  let a := event_import sample_host
             (Some (Returns (JsonText uncoercible_id_state))) sample_app in
  state a = state sample_app
  /\ localStorage a = localStorage sample_app
  /\ effects a = [SaveState uncoercible_id_state; Alert import_failed].
Proof. by vm_compute. Qed.

(** The scenario of the specification: start empty, add the habit "Water",
    toggle today on (streak 1), toggle today off (streak 0), delete the
    habit (no habits left). *)
Example scenario :
  let started := {| state := fst (loadState legacy_host fresh_app);
                    localStorage := ∅; host_calls := 0; effects := [] |} in
  let added := event_addHabit legacy_host (lit "  Water ") started in
  let id := lit "habit-1762128000000-0000000001efa" in
  let today := toKey sample_today in
  let on := event_rowClickHandlers legacy_host (DayCell id today) added in
  let off := event_rowClickHandlers legacy_host (DayCell id today) on in
  let deleted := event_rowClickHandlers legacy_host (DeleteButton id true) off in
  habits_of (state started) = []
  /\ habits_of (state added) = [habit_object id (lit "Water") ∅]
  /\ computeStreak sample_today (habit_at (state on) 0) = 1%nat
  /\ computeStreak sample_today (habit_at (state off) 0) = 0%nat
  /\ habits_of (state deleted) = []
  /\ fst (loadState legacy_host deleted) = empty_state.
Proof. by vm_compute. Qed.

(* ===================================================================== *)
(** ** Decimal renderings *)
(* ===================================================================== *)

Lemma lit_inj (s1 s2 : string) : lit s1 = lit s2 -> s1 = s2.
Proof.
  revert s2. induction s1 as [|c s1 IH]; intros [|c2 s2]; try done.
  rewrite !lit_cons. intros [= Hc Hs]. f_equal; [|by apply IH].
  by rewrite <- (ascii_N_embedding c), <- (ascii_N_embedding c2), Hc.
Qed.

Lemma to_int_not_nil (z : Z) :
  Z.to_int z <> Decimal.Pos Decimal.Nil /\ Z.to_int z <> Decimal.Neg Decimal.Nil.
Proof.
  split; intros H; pose proof (DecimalZ.of_to z) as Hz; rewrite H in Hz;
    simpl in Hz; subst z; discriminate.
Qed.

(** Different integers are written differently. *)
Lemma dec_inj (z1 z2 : Z) : dec z1 = dec z2 -> z1 = z2.
Proof.
  unfold dec. intros H%lit_inj. apply DecimalZ.to_int_inj.
  destruct (to_int_not_nil z1) as [H1 H1'], (to_int_not_nil z2) as [H2 H2'].
  pose proof (NilZero.isi _ H1 H1') as E1. pose proof (NilZero.isi _ H2 H2') as E2.
  rewrite H in E1. congruence.
Qed.

Lemma pad_two_digits_upto_100 :
  forallb (fun n => bool_decide (padStart (dec (Z.of_nat n)) 2 48 = two_digits (Z.of_nat n)))
          (seq 0 100) = true.
Proof. by vm_compute. Qed.

(** Padding the rendering of a number below 100 to two places gives its
    two digits. *)
Lemma pad_two_digits (n : Z) :
  0 <= n < 100 -> padStart (dec n) 2 48 = two_digits n.
Proof.
  intros Hn. pose proof pad_two_digits_upto_100 as H.
  rewrite forallb_forall in H.
  specialize (H (Z.to_nat n)). rewrite Z2Nat.id in H by lia.
  apply (bool_decide_eq_true _), H, in_seq. lia.
Qed.

Lemma two_digits_inj (a b : Z) :
  0 <= a < 100 -> 0 <= b < 100 -> two_digits a = two_digits b -> a = b.
Proof.
  unfold two_digits. intros Ha Hb [= H1 H2].
  apply Z2N.inj in H1; [|Z.div_mod_to_equations; lia..].
  apply Z2N.inj in H2; [|Z.div_mod_to_equations; lia..].
  Z.div_mod_to_equations. lia.
Qed.

Lemma dec_four_digits_upto_10000 :
  forallb (fun n => Nat.eqb (length (dec (1000 + Z.of_nat n))) 4)
          (seq 0 (Z.to_nat 9000)) = true.
Proof. by vm_compute. Qed.

(** The years from 1000 to 9999 are written with four digits. *)
Lemma dec_four_digits (y : Z) : 1000 <= y <= 9999 -> length (dec y) = 4%nat.
Proof.
  intros Hy. pose proof dec_four_digits_upto_10000 as H.
  rewrite forallb_forall in H.
  specialize (H (Z.to_nat (y - 1000))).
  replace (1000 + Z.of_nat (Z.to_nat (y - 1000))) with y in H by lia.
  apply Nat.eqb_eq, H, in_seq. lia.
Qed.

(* ===================================================================== *)
(** ** The calendar, continued *)
(* ===================================================================== *)

(** A year has 365 or 366 days. *)
Lemma DaysInYear (y : Z) :
  DayFromYear (y + 1) - DayFromYear y = (if InLeapYear y then 366 else 365).
Proof.
  unfold InLeapYear.
  destruct (Z.eqb_spec (DayFromYear (y + 1) - DayFromYear y) 366) as [H|H]; [done|].
  unfold DayFromYear in *. Z.div_mod_to_equations. lia.
Qed.

Lemma DayWithinYear_range (day : Z) :
  0 <= DayWithinYear day
  < (if InLeapYear (YearFromDay day) then 366 else 365).
Proof.
  unfold DayWithinYear. pose proof (YearFromDay_spec day) as H.
  rewrite <- DaysInYear. lia.
Qed.

(** The day of the month lies between 1 and 31. *)
Lemma DateFromDay_range (day : Z) : 1 <= DateFromDay day <= 31.
Proof.
  pose proof (DayWithinYear_range day) as H.
  unfold DateFromDay, MonthFromDay.
  destruct (InLeapYear (YearFromDay day));
    repeat match goal with
           | |- context [if ?c then _ else _] =>
               let E := fresh in destruct c eqn:E;
               [apply Z.ltb_lt in E|apply Z.ltb_ge in E]; cbn [month_start] in *
           end; cbn [month_start]; lia.
Qed.

(** The calendar fields of a day give the day back. *)
Lemma day_of_fields (day : Z) :
  MakeDay (YearFromDay day) (MonthFromDay day) (DateFromDay day) = day.
Proof.
  unfold MakeDay, DateFromDay, DayWithinYear.
  pose proof (MonthFromDay_range day) as Hm.
  rewrite Z.div_small, Z.mod_small, Z.add_0_r by done. lia.
Qed.

(* ===================================================================== *)
(** ** Date keys *)
(* ===================================================================== *)

Lemma toKey_unfold (date : Date) :
  toKey date
  = dec (getFullYear date)
    ++ ([hyphen] ++ two_digits (getMonth date + 1))
    ++ ([hyphen] ++ two_digits (getDate date)).
Proof.
  unfold toKey. cbv zeta.
  pose proof (MonthFromDay_range (local_day date)) as Hm.
  pose proof (DateFromDay_range (local_day date)) as Hd.
  unfold getMonth, getDate in *.
  rewrite !pad_two_digits by lia. by rewrite <- !app_assoc.
Qed.

(** X1.  [toKey] writes a date as its year in decimal, a hyphen, the two
    digits of its month (counted from 1) and, after another hyphen, the
    two digits of its day of the month; the month lies in 1..12 and the
    day in 1..31, and for a year of four digits the key has exactly ten
    code units. *)
Theorem toKey_format (date : Date) :
  toKey date
  = dec (getFullYear date)
    ++ ([hyphen] ++ two_digits (getMonth date + 1))
    ++ ([hyphen] ++ two_digits (getDate date))
  /\ 1 <= getMonth date + 1 <= 12
  /\ 1 <= getDate date <= 31
  /\ (1000 <= getFullYear date <= 9999 -> length (toKey date) = 10%nat).
Proof.
  split; [apply toKey_unfold|].
  pose proof (MonthFromDay_range (local_day date)) as Hm.
  pose proof (DateFromDay_range (local_day date)) as Hd.
  unfold getMonth, getDate. split; [lia|]. split; [lia|].
  intros Hy. rewrite toKey_unfold, !length_app, (dec_four_digits _ Hy). reflexivity.
Qed.

Lemma toKey_format_witness :
  1000 <= getFullYear sample_today <= 9999
  /\ length (toKey sample_today) = 10%nat.
Proof.
  split; [by vm_compute|].
  apply (proj2 (proj2 (proj2 (toKey_format sample_today)))). by vm_compute.
Defined.

(** Two dates with the same key lie on the same day. *)
Lemma toKey_same_day (d1 d2 : Date) :
  toKey d1 = toKey d2 -> local_day d1 = local_day d2.
Proof.
  rewrite !toKey_unfold. intros H.
  apply app_inj_2 in H as [Hy H]; [|reflexivity].
  apply app_inj_2 in H as [Hm Hd]; [|reflexivity].
  apply dec_inj in Hy. injection Hm as Hm. injection Hd as Hd.
  pose proof (MonthFromDay_range (local_day d1)) as Hm1.
  pose proof (MonthFromDay_range (local_day d2)) as Hm2.
  pose proof (DateFromDay_range (local_day d1)) as Hd1.
  pose proof (DateFromDay_range (local_day d2)) as Hd2.
  unfold getFullYear, getMonth, getDate in *.
  assert (two_digits (MonthFromDay (local_day d1) + 1)
          = two_digits (MonthFromDay (local_day d2) + 1)) as Hm'
    by (unfold two_digits; congruence).
  assert (two_digits (DateFromDay (local_day d1))
          = two_digits (DateFromDay (local_day d2))) as Hd'
    by (unfold two_digits; congruence).
  apply two_digits_inj in Hm'; [|lia..].
  apply two_digits_inj in Hd'; [|lia..].
  rewrite <- (day_of_fields (local_day d1)), <- (day_of_fields (local_day d2)).
  rewrite Hy, Hd'. f_equal. lia.
Qed.

(** The key of a date depends on its day alone. *)
Lemma toKey_of_day (d1 d2 : Date) :
  local_day d1 = local_day d2 -> toKey d1 = toKey d2.
Proof.
  intros H. unfold toKey, getFullYear, getMonth, getDate. by rewrite H.
Qed.

(** X2.  Dates on different local days never share a key: two dates with
    the same key lie on the same day (and dates on the same day, whatever
    their time of day, have the same key). *)
Theorem toKey_injective (d1 d2 : Date) :
  toKey d1 = toKey d2 <-> local_day d1 = local_day d2.
Proof. split; [apply toKey_same_day|apply toKey_of_day]. Qed.

Lemma toKey_injective_witness :
  toKey sample_today = toKey sample_tonight
  /\ local_day sample_today = local_day sample_tonight.
Proof.
  split.
  - apply (proj2 (toKey_injective sample_today sample_tonight)). reflexivity.
  - apply (proj1 (toKey_injective sample_today sample_tonight)). by vm_compute.
Defined.



(* ===================================================================== *)
(** ** Streaks, continued *)
(* ===================================================================== *)

(** The three properties of [computeStreak_spec] determine the streak. *)
Lemma computeStreak_unique (today : Date) (habit : value) (r : nat) :
  truthy (get habit k_log) = true ->
  (r <= 365)%nat ->
  (forall i, (i < r)%nat -> marked (get habit k_log) today i = true) ->
  ((r < 365)%nat -> marked (get habit k_log) today r = false) ->
  computeStreak today habit = r.
Proof.
  intros Hlog Hle Hall Hstop.
  destruct (computeStreak_spec today habit Hlog) as (Hle' & Hall' & Hstop').
  set (c := computeStreak today habit) in *.
  destruct (Nat.lt_trichotomy c r) as [Hlt|[Heq|Hgt]]; [|done|].
  - specialize (Hall c Hlt). rewrite Hstop' in Hall by lia. discriminate.
  - specialize (Hall' r Hgt). rewrite Hstop in Hall' by lia. discriminate.
Qed.




Lemma computeStreak_same_marks (today : Date) (h1 h2 : value) :
  truthy (get h1 k_log) = true ->
  truthy (get h2 k_log) = true ->
  (forall i, (i < 365)%nat ->
     marked (get h1 k_log) today i = marked (get h2 k_log) today i) ->
  computeStreak today h1 = computeStreak today h2.
Proof.
  intros Hlog1 Hlog2 Hsame.
  destruct (computeStreak_spec today h2 Hlog2) as (Hle & Hall & Hstop).
  apply computeStreak_unique; [done|done| |].
  - intros i Hi. rewrite Hsame by lia. by apply Hall.
  - intros Hlt. rewrite Hsame by lia. by apply Hstop.
Qed.

(** X5.  [computeStreak] looks at nothing but the truthiness of the log
    entries of the last 365 days: two habits with logs that mark the same
    ones of these days have the same streak, whatever else their logs,
    ids and names hold. *)
Theorem computeStreak_reads_last_365_days (today : Date) (h1 h2 : value) :
  truthy (get h1 k_log) = true ->
  truthy (get h2 k_log) = true ->
  (forall i, (i < 365)%nat ->
     marked (get h1 k_log) today i = marked (get h2 k_log) today i) ->
  computeStreak today h1 = computeStreak today h2.
Proof. apply computeStreak_same_marks. Qed.

Lemma computeStreak_reads_last_365_days_witness :
  computeStreak sample_today plain_habit = computeStreak sample_today noisy_habit.
Proof.
  apply (computeStreak_reads_last_365_days sample_today plain_habit noisy_habit);
    [by vm_compute|by vm_compute|].
  assert (forallb (fun i => Bool.eqb (marked (get plain_habit k_log) sample_today i)
                                     (marked (get noisy_habit k_log) sample_today i))
                  (seq 0 365) = true) as Hall by (by vm_compute).
  intros i Hi. apply Bool.eqb_prop.
  apply (proj1 (forallb_forall _ _) Hall i), in_seq. lia.
Defined.

(* ===================================================================== *)
(** ** Normalisation, continued *)
(* ===================================================================== *)

Lemma entries_of_get (source : value) :
  entries_of source
  = match get source k_habits with VArr entries => entries | _ => [] end.
Proof.
  unfold entries_of, habitsInput_of, raw_of.
  destruct (truthy source && is_object_type source) eqn:E; [done|].
  destruct source; try discriminate; reflexivity.
Qed.

(** X6.  An input that is no object, or whose [habits] is missing or no
    array, is normalized to the state without habits; no exception is
    raised and the host is not called. *)
Theorem normalizeState_without_habits (host : Host) (source : value) (t : nat) :
  (forall entries, get source k_habits <> VArr entries) ->
  normalizeState host source t = (Returns empty_state, t).
Proof.
  intros H. unfold normalizeState.
  fold (entries_of source). rewrite entries_of_get.
  destruct (get source k_habits) as [| | | | |entries|] eqn:E; try reflexivity.
  by destruct (H entries).
Qed.

Lemma normalizeState_without_habits_witness :
  normalizeState sample_host VNull 0%nat = (Returns empty_state, 0%nat)
  /\ normalizeState sample_host (str "habits") 3%nat = (Returns empty_state, 3%nat)
  /\ normalizeState sample_host (VArr [mixed_habit]) 3%nat
     = (Returns empty_state, 3%nat)
  /\ normalizeState sample_host
       (object [("habits"%string, object [("0"%string, mixed_habit)])]) 7%nat
     = (Returns empty_state, 7%nat).
Proof.
  split; [|split; [|split]].
  - apply (normalizeState_without_habits sample_host VNull 0).
    intros entries. by vm_compute.
  - apply (normalizeState_without_habits sample_host (str "habits") 3).
    intros entries. by vm_compute.
  - apply (normalizeState_without_habits sample_host (VArr [mixed_habit]) 3).
    intros entries. by vm_compute.
  - apply (normalizeState_without_habits sample_host
             (object [("habits"%string, object [("0"%string, mixed_habit)])]) 7).
    intros entries. by vm_compute.
Defined.

Lemma habit_log_cases (h : value) :
  (exists props, get h k_log = VObj props /\ habit_log h = props)
  \/ ((forall props, get h k_log <> VObj props) /\ habit_log h = ∅).
Proof.
  unfold habit_log.
  destruct (get h k_log) as [| | | | | |props] eqn:Hlog;
    try (right; split; [done|]; by rewrite ?andb_false_r).
  left. exists props. split; [done|].
  assert (truthy h = true) as -> by (by destruct h). done.
Qed.

(** X7.  Whenever [normalizeState] returns, the habit built from an entry
    whose log is a plain object has a log with exactly the entries of that
    object, and the habit built from any other entry (no log, an array, a
    string, a number, ...) has the empty log. *)
Theorem normalizeState_log (host : Host) (source : value) (t : nat)
    (entries : list value) (st : value) (k : nat) (h o : value) :
  get source k_habits = VArr entries ->
  result (normalizeState host source) t = Returns st ->
  entries !! k = Some h ->
  habits_of st !! k = Some o ->
  (forall props, get h k_log = VObj props -> get o k_log = VObj props)
  /\ ((forall props, get h k_log <> VObj props) -> get o k_log = VObj ∅).
Proof.
  intros Hentries Hret Hh Ho.
  destruct (normalizeState_keeps_entries _ _ _ _ _ Hentries Hret) as [_ Hk].
  destruct (Hk _ _ Hh) as (id & Ho' & _). rewrite Ho in Ho'. injection Ho' as ->.
  rewrite get_habit_object_log.
  destruct (habit_log_cases h) as [(props & Hp & ->)|[Hnone ->]]; split.
  - intros props' Hp'. congruence.
  - intros Hall. by destruct (Hall props).
  - intros props Hp. by destruct (Hnone props).
  - done.
Qed.

Lemma normalizeState_log_witness :
  get (habit_at identified_state_normalized 0) k_log = get mixed_habit k_log
  /\ get (habit_at identified_state_normalized 1) k_log = VObj ∅.
Proof.
  split.
  - destruct (normalizeState_log sample_host identified_state 0
                [mixed_habit; array_log_habit] identified_state_normalized
                0 mixed_habit (habit_at identified_state_normalized 0))
      as [H _]; [by vm_compute..|].
    apply H. reflexivity.
  - destruct (normalizeState_log sample_host identified_state 0
                [mixed_habit; array_log_habit] identified_state_normalized
                1 array_log_habit (habit_at identified_state_normalized 1))
      as [_ H]; [by vm_compute..|].
    apply H. intros props. by vm_compute.
Defined.

(** X8.  Whatever [normalizeState] returns has exactly one property,
    [habits], an array of objects with exactly the properties [id], [name]
    and [log]: a non-empty string, a non-empty string without white space
    at its ends, and a plain object.  Anything else the input or its
    entries carry is dropped. *)
Theorem normalizeState_result_normalized (host : Host) (source : value) (t : nat)
    (st : value) :
  result (normalizeState host source) t = Returns st ->
  normalized st = true
  /\ forall o, o ∈ habits_of st ->
       exists id name log,
         o = habit_object id name log /\ id <> [] /\ name <> [] /\ trim name = name.
Proof.
  intros H%normalizeState_returns_normalized. split; [done|].
  apply normalized_inv in H as (habits & -> & Hall).
  rewrite habits_of_state_object. intros o Ho.
  apply normalized_habit_inv. rewrite forallb_forall in Hall.
  by apply Hall, list_elem_of_In.
Qed.

Lemma normalizeState_result_normalized_witness :
  normalized mixed_state_normalized = true
  /\ forall o, o ∈ habits_of mixed_state_normalized ->
       exists id name log,
         o = habit_object id name log /\ id <> [] /\ name <> [] /\ trim name = name.
Proof.
  apply (normalizeState_result_normalized sample_host mixed_state 0
           mixed_state_normalized).
  by vm_compute.
Defined.

(** *** Generated ids without [crypto.randomUUID] *)

Lemma string_of_uint_no_hyphen (u : Decimal.uint) :
  hyphen ∉ lit (NilEmpty.string_of_uint u).
Proof.
  induction u; simpl; [apply not_elem_of_nil|..];
    rewrite lit_cons; apply not_elem_of_cons; (split; [by vm_compute|done]).
Qed.

(** The rendering of a natural number has no minus sign. *)
Lemma dec_nat_no_hyphen (n : nat) : hyphen ∉ dec (Z.of_nat n).
Proof.
  unfold dec. destruct (Z.of_nat n) as [|p|p] eqn:E; [| |lia].
  - vm_compute. intros H. apply list_elem_of_singleton in H. discriminate.
  - simpl. unfold NilZero.string_of_uint.
    destruct (Pos.to_uint p) eqn:Ep;
      [vm_compute; intros H; apply list_elem_of_singleton in H; discriminate|..];
      rewrite <- Ep; apply string_of_uint_no_hyphen.
Qed.

(** Ids of the form [habit-<time>-<index>] with different indices are
    different, whatever the times are. *)
Lemma fallback_id_index (a b : Z) (i j : nat) :
  lit "habit-" ++ dec a ++ lit "-" ++ dec (Z.of_nat i)
  = lit "habit-" ++ dec b ++ lit "-" ++ dec (Z.of_nat j) ->
  i = j.
Proof.
  intros H%app_inv_head. change (lit "-") with [hyphen] in H. simpl in H.
  apply not_elem_of_app_cons_inv_r in H as (_ & _ & H);
    [|apply dec_nat_no_hyphen..].
  apply dec_inj in H. lia.
Qed.

Lemma VStr_inj (a b : jsstring) : VStr a = VStr b -> a = b.
Proof. by intros [= ->]. Qed.

Lemma id_choice_fallback (host : Host) (h : value) (index : nat) (id : jsstring) :
  has_randomUUID host = false ->
  id_coerces h = false ->
  id_choice host h index id ->
  exists tk, id = lit "habit-" ++ dec (Date_now host tk) ++ lit "-"
                  ++ dec (Z.of_nat index).
Proof.
  intros Hhost Hno [Hg Hs Hne|tk _ Hgen].
  - unfold id_coerces in Hno. apply andb_true_iff in Hg as [_ Hg].
    rewrite Hg, Hs in Hno. unfold nonempty in Hno.
    by rewrite bool_decide_eq_false_2 in Hno.
  - exists tk. unfold generated_id in Hgen. rewrite Hhost in Hgen.
    unfold bind, now, ret in Hgen. by injection Hgen as <-.
Qed.

(** X9.  On a host without [crypto.randomUUID], the id that
    [normalizeState] generates for the entry at position [i] (an entry
    whose own id is missing, falsy or coerces to the empty string) is
    [habit-<time>-<i>], and the ids generated for two different positions
    in one call differ, even if the clock does not move between them. *)
Theorem fallback_ids_distinct (host : Host) (source : value) (t : nat) (st : value)
    (i j : nat) (hi hj oi oj : value) :
  has_randomUUID host = false ->
  result (normalizeState host source) t = Returns st ->
  entries_of source !! i = Some hi -> id_coerces hi = false ->
  entries_of source !! j = Some hj -> id_coerces hj = false ->
  habits_of st !! i = Some oi ->
  habits_of st !! j = Some oj ->
  (exists tk, get oi k_id
              = VStr (lit "habit-" ++ dec (Date_now host tk) ++ lit "-"
                      ++ dec (Z.of_nat i)))
  /\ (i <> j -> get oi k_id <> get oj k_id).
Proof.
  intros Hhost Hret Hi Hni Hj Hnj Hoi Hoj.
  apply normalizeState_returns in Hret as (out & -> & _ & Hout).
  rewrite habits_of_state_object in *. fold (entries_of source) in Hout.
  destruct (Hout i hi Hi) as (idi & Hoi' & _ & Hci).
  destruct (Hout j hj Hj) as (idj & Hoj' & _ & Hcj).
  rewrite Hoi in Hoi'. rewrite Hoj in Hoj'.
  injection Hoi' as ->. injection Hoj' as ->.
  rewrite !get_habit_object_id.
  destruct (id_choice_fallback host hi i idi Hhost Hni Hci) as [ti ->].
  destruct (id_choice_fallback host hj j idj Hhost Hnj Hcj) as [tj ->].
  split; [by exists ti|].
  intros Hne H%VStr_inj. by apply fallback_id_index in H.
Qed.

Lemma fallback_ids_distinct_witness :
  get (habit_at (returned (result (normalizeState frozen_host anonymous_state) 0)) 0) k_id
  <> get (habit_at (returned (result (normalizeState frozen_host anonymous_state) 0)) 2)
         k_id.
Proof.
  refine (proj2 (fallback_ids_distinct frozen_host anonymous_state 0
                   (returned (result (normalizeState frozen_host anonymous_state) 0))
                   0 2 (object []) (object [("id"%string, str "")]) _ _
                   _ _ _ _ _ _ _ _) _);
    by vm_compute.
Defined.

(* ===================================================================== *)
(** ** loadState and saveState, continued *)
(* ===================================================================== *)


Lemma loadState_cases (host : Host) (a : App) :
  normalized (fst (loadState host a)) = true
  /\ state (snd (loadState host a)) = state a
  /\ localStorage (snd (loadState host a)) = localStorage a.
Proof.
  unfold loadState.
  destruct (localStorage a !! STORAGE_KEY) as [raw|]; [|done].
  destruct (text_truthy raw); [|done]. cbn [negb].
  destruct (JSON_parse raw) as [parsed|e]; [|done].
  unfold run.
  destruct (normalizeState host parsed (host_calls a)) as [[s|e] t'] eqn:E; [|done].
  cbn [fst snd state localStorage]. split; [|done].
  apply (normalizeState_returns_normalized host parsed (host_calls a)).
  unfold result. by rewrite E.
Qed.

(** X10.  Whatever the storage holds, [loadState] returns a normalized
    state, and it changes neither the state variable nor the storage. *)
Theorem loadState_safe (host : Host) (a : App) :
  normalized (fst (loadState host a)) = true
  /\ state (snd (loadState host a)) = state a
  /\ localStorage (snd (loadState host a)) = localStorage a.
Proof. apply loadState_cases. Qed.

(** X11.  [loadState] falls back to the state without habits: silently
    when the storage holds nothing, or the empty string, under the storage
    key; with one warning when it holds a text that does not parse, or a
    text whose normalisation throws.  A text that parses to a value that
    [normalizeState] accepts gives the normalized value. *)
Theorem loadState_fallback (host : Host) (a : App) :
  (localStorage a !! STORAGE_KEY = None \/
   localStorage a !! STORAGE_KEY = Some (OtherText []) ->
   loadState host a = (empty_state, a))
  /\ (forall s, s <> [] -> localStorage a !! STORAGE_KEY = Some (OtherText s) ->
        loadState host a = (empty_state, emit (Warn warning) a))
  /\ (forall d e, localStorage a !! STORAGE_KEY = Some (JsonText d) ->
        result (normalizeState host d) (host_calls a) = Throws e ->
        fst (loadState host a) = empty_state
        /\ effects (snd (loadState host a)) = effects a ++ [Warn warning])
  /\ (forall d st, localStorage a !! STORAGE_KEY = Some (JsonText d) ->
        result (normalizeState host d) (host_calls a) = Returns st ->
        fst (loadState host a) = st
        /\ effects (snd (loadState host a)) = effects a).
Proof.
  unfold loadState. repeat split.
  - by intros [->| ->].
  - intros s Hs ->. simpl. by rewrite bool_decide_eq_false_2.
  - rewrite H. simpl. unfold run, result in *.
    destruct (normalizeState host d (host_calls a)) as [[s|e'] t']; [discriminate|done].
  - rewrite H. simpl. unfold run, result in *.
    destruct (normalizeState host d (host_calls a)) as [[s|e'] t']; [discriminate|done].
  - rewrite H. simpl. unfold run, result in *.
    destruct (normalizeState host d (host_calls a)) as [[s|e'] t']; [|discriminate].
    simpl in *. congruence.
  - rewrite H. simpl. unfold run, result in *.
    destruct (normalizeState host d (host_calls a)) as [[s|e'] t']; [|discriminate].
    done.
Qed.

Lemma loadState_fallback_witness :
  loadState sample_host (app_with foreign_storage)
  = (empty_state, app_with foreign_storage)
  /\ loadState sample_host (app_with blank_storage)
     = (empty_state, app_with blank_storage)
  /\ loadState sample_host (app_with garbled_storage)
     = (empty_state, emit (Warn warning) (app_with garbled_storage))
  /\ effects (snd (loadState sample_host (app_with uncoercible_storage)))
     = effects (app_with uncoercible_storage) ++ [Warn warning].
Proof.
  split; [|split; [|split]].
  - apply (proj1 (loadState_fallback sample_host (app_with foreign_storage))).
    left. by vm_compute.
  - apply (proj1 (loadState_fallback sample_host (app_with blank_storage))).
    right. by vm_compute.
  - apply (proj1 (proj2 (loadState_fallback sample_host (app_with garbled_storage)))
             (lit "{habits")); by vm_compute.
  - apply (proj1 (proj2 (proj2 (loadState_fallback sample_host
                                  (app_with uncoercible_storage))))
             uncoercible_id_state TypeError); by vm_compute.
Defined.

(** What a call of [saveState] does to state and storage. *)
Lemma saveState_step (host : Host) (x : value) (a : App) :
  saved_or_untouched a (snd (saveState host x a))
  /\ match fst (saveState host x a) with
     | Returns _ =>
         result (normalizeState host x) (host_calls a)
         = Returns (state (snd (saveState host x a)))
         /\ localStorage (snd (saveState host x a))
            = <[STORAGE_KEY := JSON_stringify (state (snd (saveState host x a)))]>
                (localStorage a)
     | Throws e =>
         result (normalizeState host x) (host_calls a) = Throws e
         /\ state (snd (saveState host x a)) = state a
         /\ localStorage (snd (saveState host x a)) = localStorage a
     end.
Proof.
  destruct (result (normalizeState host x) (host_calls a)) as [st|e] eqn:E.
  - destruct (saveState_returns host x a st E) as [t' ->]. cbn [fst snd state localStorage].
    split; [|done]. right. split; [|done].
    by apply normalizeState_returns_normalized in E.
  - destruct (saveState_throws host x a e E) as (Hf & Hs & Hl).
    rewrite Hf. split; [by left|done].
Qed.


(* ===================================================================== *)
(** ** The handlers, one by one *)
(* ===================================================================== *)

(** [saveState] of a normalized state stores it as it is. *)
Lemma saveState_normalized (host : Host) (x : value) (a : App) :
  normalized x = true ->
  saveState host x a
  = (Returns tt,
     {| state := x;
        localStorage := <[STORAGE_KEY := JSON_stringify x]> (localStorage a);
        host_calls := host_calls a;
        effects := effects a ++ [SaveState x] |}).
Proof.
  intros H. unfold saveState, run. cbn [emit host_calls state localStorage effects].
  by rewrite (normalizeState_normalized host x (host_calls a) H).
Qed.

Lemma state_of_normalized (st : value) :
  normalized st = true ->
  st = state_object (habits_of st)
  /\ forallb normalized_habit (habits_of st) = true.
Proof.
  intros (habits & -> & H)%normalized_inv. by rewrite habits_of_state_object.
Qed.

(** The day-cell branch on a normalized state. *)
Lemma toggle_day_normalized (host : Host) (habitId dayKey : jsstring) (a : App) :
  normalized (state a) = true ->
  exists habits',
    map_outcome (toggle_habit habitId dayKey) (habits_of (state a)) = Returns habits'
    /\ forallb normalized_habit habits' = true
    /\ toggle_day host habitId dayKey a
       = {| state := state_object habits';
            localStorage := <[STORAGE_KEY := JSON_stringify (state_object habits')]>
                              (localStorage a);
            host_calls := host_calls a;
            effects := effects a ++ [SaveState (state_object habits'); Render] |}.
Proof.
  intros Hnorm. destruct (state_of_normalized _ Hnorm) as [Hst Hall].
  destruct (map_outcome_normalized habitId dayKey _ Hall)
    as (habits' & Hmap & Hnorm' & _ & _).
  exists habits'. split; [done|]. split; [done|].
  unfold toggle_day, map_habits. rewrite Hst at 1.
  cbn [member state_object outcome_bind]. fold (state_object (habits_of (state a))).
  rewrite get_state_object, Hmap.
  rewrite saveState_normalized by (by apply normalized_state_object).
  unfold render, emit. cbn [state localStorage host_calls effects].
  by rewrite <- app_assoc.
Qed.











(* ===================================================================== *)
(** ** Import and export *)
(* ===================================================================== *)



(** X17.  The export handler changes neither state nor storage: it offers
    the serialised state for download as [habits-export.json].  Importing
    that text, into the program in any state, makes the state what the
    text denotes, which is the exported state itself whenever its logs are
    representable in JSON. *)
Theorem export_then_import (host : Host) (a b : App) :
  normalized (state a) = true ->
  state (event_export a) = state a
  /\ localStorage (event_export a) = localStorage a
  /\ effects (event_export a)
     = effects a ++ [Download export_name (JSON_stringify (state a))]
  /\ serialized (state a)
     = Some (state (event_import host (Some (Returns (JSON_stringify (state a)))) b))
  /\ (logs_representable (state a) = true ->
      state (event_import host (Some (Returns (JSON_stringify (state a)))) b)
      = state a).
Proof.
  intros Hnorm. split; [done|]. split; [done|]. split; [done|].
  destruct (serialized_normalized _ Hnorm) as (d & Hser & Hd & Hrep).
  assert (state (event_import host (Some (Returns (JSON_stringify (state a)))) b) = d)
    as ->.
  { unfold JSON_stringify. rewrite Hser.
    unfold event_import, import_attempt. cbn [JSON_parse].
    destruct (state_of_normalized _ Hd) as [Hst _].
    rewrite Hst at 1 2. cbn [member state_object]. fold (state_object (habits_of d)).
    rewrite get_state_object. cbn [isArray negb]. rewrite <- Hst.
    by rewrite saveState_normalized. }
  split; [done|]. exact Hrep.
Qed.

Lemma export_then_import_witness :
  normalized (state sample_app) = true
  /\ state (event_import sample_host
              (Some (Returns (JSON_stringify (state sample_app)))) twin_app)
     = state sample_app.
Proof.
  split; [by vm_compute|].
  apply (export_then_import sample_host sample_app twin_app); by vm_compute.
Defined.

(* ===================================================================== *)
(** ** Toggling, continued *)
(* ===================================================================== *)

(** A date key is none of the names a plain object inherits. *)
Lemma toKey_not_inherited (d : Date) : toKey d ∉ Object_prototype_names.
Proof.
  intros Hin.
  assert (hyphen ∈ toKey d) as Hh.
  { rewrite toKey_unfold. apply elem_of_app. right. apply elem_of_app. left.
    apply list_elem_of_here. }
  assert (Forall (fun n => hyphen ∉ n) Object_prototype_names) as Hall.
  { apply (bool_decide_unpack _). by vm_compute. }
  rewrite Forall_forall in Hall. by apply (Hall _ Hin).
Qed.

(** For a name that is not inherited, the toggled log holds the negation
    of the truthiness of the entry it had. *)
Lemma toggled_entry (log : gmap jsstring value) (dayKey : jsstring) :
  dayKey ∉ Object_prototype_names ->
  assign log dayKey (VBool (negb (truthy_at log dayKey))) !! dayKey
  = Some (VBool (negb (truthy (default VUndefined (log !! dayKey))))).
Proof.
  intros Hni. unfold assign, truthy_at.
  destruct (log !! dayKey) as [v|] eqn:E.
  - by rewrite lookup_insert_eq.
  - rewrite (bool_decide_eq_false_2 _ Hni).
    rewrite bool_decide_eq_false_2; [by rewrite lookup_insert_eq|].
    intros ->. apply Hni. apply (bool_decide_unpack _). by vm_compute.
Qed.

(** The toggle callback on a habit that is the target. *)
Lemma toggle_habit_target (habitId dayKey : jsstring) (name : jsstring)
    (log : gmap jsstring value) :
  toggle_habit habitId dayKey (habit_object habitId name log)
  = Returns (habit_object habitId name
               (assign log dayKey (VBool (negb (truthy_at log dayKey))))).
Proof.
  unfold toggle_habit, member. cbn [habit_object outcome_bind].
  fold (habit_object habitId name log).
  rewrite get_habit_object_id. cbn [strict_equal_string].
  rewrite bool_decide_eq_true_2 by done. cbn [negb].
  rewrite get_habit_object_log. cbn [spread].
  by rewrite habit_object_with_log.
Qed.

(** The toggle callback on a habit that is not the target. *)
Lemma toggle_habit_other (habitId dayKey : jsstring) (id name : jsstring)
    (log : gmap jsstring value) :
  id <> habitId ->
  toggle_habit habitId dayKey (habit_object id name log)
  = Returns (habit_object id name log).
Proof.
  intros Hne. unfold toggle_habit, member. cbn [habit_object outcome_bind].
  fold (habit_object id name log).
  rewrite get_habit_object_id. cbn [strict_equal_string].
  by rewrite bool_decide_eq_false_2.
Qed.

(** The habits after a click on a day cell, position by position. *)
Lemma toggle_day_habits (host : Host) (habitId dayKey : jsstring) (a : App)
    (k : nat) (h : value) :
  normalized (state a) = true ->
  habits_of (state a) !! k = Some h ->
  exists h',
    habits_of (state (event_rowClickHandlers host (DayCell habitId dayKey) a)) !! k
    = Some h'
    /\ toggle_habit habitId dayKey h = Returns h'
    /\ normalized (state (event_rowClickHandlers host (DayCell habitId dayKey) a))
       = true.
Proof.
  intros Hnorm Hk. destruct (state_of_normalized _ Hnorm) as [_ Hall].
  destruct (toggle_day_normalized host habitId dayKey a Hnorm)
    as (habits' & Hmap & Hnorm' & Heq).
  destruct (map_outcome_normalized habitId dayKey _ Hall)
    as (habits'' & Hmap' & _ & _ & Hpos).
  rewrite Hmap in Hmap'. injection Hmap' as <-.
  destruct (Hpos k h Hk) as (h' & Hk' & Ht).
  exists h'. cbn [event_rowClickHandlers]. rewrite Heq. cbn [state].
  rewrite habits_of_state_object. split; [done|]. split; [done|].
  by apply normalized_state_object.
Qed.

(** X18.  On a normalized state, a click on the day cell of [habitId] and
    [dayKey] puts into the log of every habit with that id, under
    [dayKey], the boolean that negates the truthiness of the entry the log
    had there (an absent entry becomes [true]), for every [dayKey] that is
    not the name of a property that objects inherit; date keys are such
    keys. *)
Theorem toggle_flips_entry (host : Host) (habitId dayKey : jsstring) (a : App)
    (k : nat) (h : value) :
  (forall d, toKey d ∉ Object_prototype_names)
  /\ (normalized (state a) = true ->
      dayKey ∉ Object_prototype_names ->
      habits_of (state a) !! k = Some h ->
      get h k_id = VStr habitId ->
      exists h',
        habits_of (state (event_rowClickHandlers host (DayCell habitId dayKey) a)) !! k
        = Some h'
        /\ get (get h' k_log) dayKey
           = VBool (negb (truthy (get (get h k_log) dayKey)))).
Proof.
  split; [apply toKey_not_inherited|].
  intros Hnorm Hni Hk Hid.
  destruct (toggle_day_habits host habitId dayKey a k h Hnorm Hk) as (h' & Hk' & Ht & _).
  exists h'. split; [done|].
  destruct (state_of_normalized _ Hnorm) as [_ Hall].
  rewrite forallb_forall in Hall.
  assert (normalized_habit h = true) as Hh.
  { apply Hall, list_elem_of_In, list_elem_of_lookup. eauto. }
  apply normalized_habit_inv in Hh as (id & name & log & -> & _).
  rewrite get_habit_object_id in Hid. apply VStr_inj in Hid as ->.
  rewrite toggle_habit_target in Ht. injection Ht as <-.
  rewrite !get_habit_object_log. unfold get. by rewrite toggled_entry.
Qed.

Lemma toggle_flips_entry_witness :
  get (get (habit_at (state (event_rowClickHandlers sample_host
                               (DayCell (lit "7") (toKey sample_today)) sample_app)) 0)
           k_log) (toKey sample_today)
  = VBool false
  /\ get (get (habit_at (state (event_rowClickHandlers sample_host
                                  (DayCell (lit "7") (lit "2025-11-02")) sample_app)) 0)
              k_log) (lit "2025-11-02")
     = VBool true.
Proof.
  split.
  - destruct (proj2 (toggle_flips_entry sample_host (lit "7") (toKey sample_today)
                       sample_app 0 (habit_at mixed_state_normalized 0)))
      as (h' & Hk & Hv); [by vm_compute|apply toKey_not_inherited|by vm_compute..|].
    unfold habit_at. rewrite Hk. cbn [default from_option id]. rewrite Hv. by vm_compute.
  - destruct (proj2 (toggle_flips_entry sample_host (lit "7") (lit "2025-11-02")
                       sample_app 0 (habit_at mixed_state_normalized 0)))
      as (h' & Hk & Hv); [by vm_compute| |by vm_compute..|].
    { apply (bool_decide_unpack _). by vm_compute. }
    unfold habit_at. rewrite Hk. cbn [default from_option id]. rewrite Hv. by vm_compute.
Defined.

Lemma toggled_twice_truthy (log : gmap jsstring value) (dayKey : jsstring) (d : Date) :
  let log1 := assign log dayKey (VBool (negb (truthy_at log dayKey))) in
  let log2 := assign log1 dayKey (VBool (negb (truthy_at log1 dayKey))) in
  truthy (get (VObj log2) (toKey d)) = truthy (get (VObj log) (toKey d)).
Proof.
  cbv zeta. unfold get.
  destruct (decide (toKey d = dayKey)) as [<-|Hne].
  - rewrite !toggled_entry by apply toKey_not_inherited.
    cbn [default from_option id truthy]. by rewrite negb_involutive.
  - by rewrite !assign_other.
Qed.

(** X19.  On a normalized state, two clicks on the same day cell leave
    every habit with its id and its name, and with a log that marks the
    same days as before (the entries of the clicked key may have become
    booleans): every streak, on any day, is what it was. *)
Theorem toggle_twice_keeps_streaks (host : Host) (habitId dayKey : jsstring) (a : App)
    (k : nat) (h : value) (today : Date) :
  normalized (state a) = true ->
  habits_of (state a) !! k = Some h ->
  exists h'',
    habits_of (state (event_rowClickHandlers host (DayCell habitId dayKey)
                        (event_rowClickHandlers host (DayCell habitId dayKey) a))) !! k
    = Some h''
    /\ get h'' k_id = get h k_id
    /\ get h'' k_name = get h k_name
    /\ (forall d, truthy (get (get h'' k_log) (toKey d))
                  = truthy (get (get h k_log) (toKey d)))
    /\ computeStreak today h'' = computeStreak today h.
Proof.
  intros Hnorm Hk.
  destruct (toggle_day_habits host habitId dayKey a k h Hnorm Hk)
    as (h' & Hk' & Ht & Hnorm').
  destruct (toggle_day_habits host habitId dayKey _ k h' Hnorm' Hk')
    as (h'' & Hk'' & Ht' & _).
  exists h''. split; [done|].
  destruct (state_of_normalized _ Hnorm) as [_ Hall].
  rewrite forallb_forall in Hall.
  assert (normalized_habit h = true) as Hh.
  { apply Hall, list_elem_of_In, list_elem_of_lookup. eauto. }
  apply normalized_habit_inv in Hh as (id & name & log & -> & _).
  assert (get h'' k_id = VStr id /\ get h'' k_name = VStr name
          /\ exists log'', get h'' k_log = VObj log''
             /\ forall d, truthy (get (VObj log'') (toKey d))
                          = truthy (get (VObj log) (toKey d))) as (Hid & Hname & Hlog).
  { destruct (decide (id = habitId)) as [->|Hne].
    - rewrite toggle_habit_target in Ht. injection Ht as <-.
      rewrite toggle_habit_target in Ht'. injection Ht' as <-.
      rewrite get_habit_object_id, get_habit_object_name, get_habit_object_log.
      split; [done|]. split; [done|]. eexists. split; [done|].
      intros d. apply toggled_twice_truthy.
    - rewrite toggle_habit_other in Ht by done. injection Ht as <-.
      rewrite toggle_habit_other in Ht' by done. injection Ht' as <-.
      rewrite get_habit_object_id, get_habit_object_name, get_habit_object_log.
      split; [done|]. split; [done|]. by eexists. }
  destruct Hlog as (log'' & Hlog & Hsame).
  rewrite get_habit_object_id, get_habit_object_name, get_habit_object_log.
  rewrite Hlog. split; [done|]. split; [done|]. split; [done|].
  apply computeStreak_same_marks.
  - by rewrite Hlog.
  - by rewrite get_habit_object_log.
  - intros i _. unfold marked. rewrite Hlog, get_habit_object_log. apply Hsame.
Qed.

Lemma toggle_twice_keeps_streaks_witness :
  exists h'',
    habits_of (state (event_rowClickHandlers sample_host
                        (DayCell (lit "7") (toKey sample_today))
                        (event_rowClickHandlers sample_host
                           (DayCell (lit "7") (toKey sample_today)) sample_app))) !! 0%nat
    = Some h''
    /\ get h'' k_id = get (habit_at mixed_state_normalized 0) k_id
    /\ get h'' k_name = get (habit_at mixed_state_normalized 0) k_name
    /\ (forall d, truthy (get (get h'' k_log) (toKey d))
                  = truthy (get (get (habit_at mixed_state_normalized 0) k_log)
                              (toKey d)))
    /\ computeStreak sample_today h''
       = computeStreak sample_today (habit_at mixed_state_normalized 0).
Proof.
  apply (toggle_twice_keeps_streaks sample_host (lit "7") (toKey sample_today)
           sample_app 0 (habit_at mixed_state_normalized 0) sample_today);
    by vm_compute.
Defined.

(* ===================================================================== *)
(** ** The program as a whole *)
(* ===================================================================== *)

(** A call of [saveState], followed by steps that touch neither state nor
    storage, saves or leaves untouched. *)
Lemma save_and_then (host : Host) (x : value) (a a0 : App) (f : App -> App) :
  state a0 = state a -> localStorage a0 = localStorage a ->
  (forall b, state (f b) = state b /\ localStorage (f b) = localStorage b) ->
  saved_or_untouched a
    (match saveState host x a0 with
     | (Throws e, a') => emit (Uncaught e) a'
     | (Returns _, a') => f a'
     end).
Proof.
  intros Hs Hl Hf.
  destruct (saveState_step host x a0) as [Hstep _].
  destruct (saveState host x a0) as [[u|e] a'] eqn:E; cbn [snd] in Hstep.
  - destruct (Hf a') as [Hfs Hfl]. unfold saved_or_untouched in *.
    by rewrite Hfs, Hfl, <- Hs, <- Hl.
  - unfold saved_or_untouched in *. cbn [emit state localStorage].
    by rewrite <- Hs, <- Hl.
Qed.

Lemma handler_step (host : Host) (ev : user_event) (a : App) :
  saved_or_untouched a (setupEventHandlers host ev a).
Proof.
  destruct ev as [input|[habitId dayKey|habitId [|]|]| |[[t|e]|]|[|]];
    cbn [setupEventHandlers event_rowClickHandlers].
  - unfold event_addHabit. cbv zeta.
    destruct (negb (truthy (VStr (trim input)))); [by left|].
    destruct (spread_habits (state a)) as [habits|e]; [|by left].
    unfold run. destruct (newHabit host (trim input) (host_calls a)) as [[habit|e] t'];
      [|by left].
    by apply save_and_then.
  - unfold toggle_day.
    destruct (map_habits (toggle_habit habitId dayKey) (state a)); [|by left].
    by apply save_and_then.
  - unfold delete_habit. cbn [emit state].
    destruct (without_habit habitId (state a)); [|by left].
    by apply save_and_then.
  - by left.
  - by left.
  - by left.
  - unfold event_import, import_attempt.
    destruct (JSON_parse t) as [data|e]; [|by left].
    destruct (member data k_habits) as [habits|e]; [|by left].
    destruct (negb (isArray habits)); [by left|].
    destruct (saveState_step host data a) as [Hstep _].
    by destruct (saveState host data a) as [[u|e] a'].
  - by left.
  - by left.
  - unfold event_reset. cbv zeta. by apply save_and_then.
  - by left.
Qed.


Lemma startup_normalized (host : Host) (storage : gmap jsstring text) :
  normalized (state (startup host storage)) = true.
Proof.
  unfold startup. cbv zeta.
  pose proof (loadState_cases host
                {| state := VUndefined; localStorage := storage;
                   host_calls := 0; effects := [] |}) as [H _].
  by destruct (loadState host _) as [st a'].
Qed.

Lemma after_events_normalized (host : Host) (events : list user_event) (a : App) :
  normalized (state a) = true ->
  normalized (state (after_events host events a)) = true.
Proof.
  revert a. induction events as [|ev events IH]; intros a Hnorm; [done|].
  cbn [after_events fold_left]. apply IH.
  destruct (handler_step host ev a) as [[-> _]|[H _]]; done.
Qed.

(** X21.  The state is normalized at all times: after the start-up in a
    browser with any storage, and after any sequence of events, whatever
    the imported files hold. *)
Theorem state_always_normalized (host : Host) (storage : gmap jsstring text)
    (events : list user_event) :
  normalized (state (after_events host events (startup host storage))) = true.
Proof. apply after_events_normalized, startup_normalized. Qed.

(* ===================================================================== *)
(** ** Reloading *)
(* ===================================================================== *)
















(** The session leaves the two habits of the imported file and the one
    added after it. *)
Example sample_session_habits :
  map (fun h => get h k_name)
      (habits_of (state (after_events legacy_host sample_session
                           (startup legacy_host ∅))))
  = [str "Water"; str "Run"; str "Walk"].
Proof. by vm_compute. Qed.
